(** * ArchInsight: the analysis engine's contract and the front end that shows it

    The development has two layers.

    - The front end (React components [Projects], [Dashboard] and [Analysis])
      is embedded from its TypeScript source: component state is a record,
      every handler is a state transformer, and rendering is a function from
      the state to a small view tree that keeps what the claims talk about.
    - The engine behind the front end (risk scorer, pipeline orchestrator,
      graph builder) is not implemented in the front-end sources.  Where a
      property is about the engine, the engine is modelled from the
      specification; every such definition says so in its documentation.

    JavaScript numbers that only ever hold integers are [Z]; numbers with a
    fractional part are exact rationals [Q] (the decimal literal's value).
    Strings are [string], one character below U+0100 per position; text
    with other characters is not represented. *)

From Stdlib Require Import ZArith QArith Lqa Ascii String.
From Stdlib Require Import DecimalString DecimalN.
From stdpp Require Import base decidable list sorting strings.

Local Open Scope Z_scope.

(** ** JavaScript built-ins used by the components *)

Module JS.

(** [String.prototype.toLowerCase] on text whose characters all lie
    below U+0100; the strings of this development hold one such character
    per position.  On that text lowering works character by character:
    the letters [A]..[Z] (codes 65..90) and the Latin-1 capitals (codes
    192..222, the multiplication sign 215 apart) move up by 32, everything
    else stays.  Text beyond that range, on which lowering may depend on
    the neighbouring characters, is not represented. *)
Definition lower_char (c : ascii) : ascii :=
  let n := N_of_ascii c in
  if ((65 <=? n) && (n <=? 90)
      || (192 <=? n) && (n <=? 222) && negb (n =? 215))%N
  then ascii_of_N (n + 32) else c.

Fixpoint toLowerCase (s : string) : string :=
  match s with
  | EmptyString => EmptyString
  | String c s' => String (lower_char c) (toLowerCase s')
  end.

(** [s.startsWith(p)] *)
Fixpoint startsWith (s p : string) {struct p} : bool :=
  match p, s with
  | EmptyString, _ => true
  | String _ _, EmptyString => false
  | String a p', String b s' => Ascii.eqb a b && startsWith s' p'
  end.

(** [s.includes(t)]: [t] occurs in [s] at some position. *)
Fixpoint includes (s t : string) : bool :=
  startsWith s t ||
  match s with
  | EmptyString => false
  | String _ s' => includes s' t
  end.

(** [Array.prototype.slice(start, end)]: a negative index counts from the
    end of the array, both indices are clamped to [0, length], and an
    empty range gives the empty array. *)
Definition slice {A} (l : list A) (start end_ : Z) : list A :=
  let len := Z.of_nat (length l) in
  let k := if start <? 0 then Z.max (len + start) 0 else Z.min start len in
  let final := if end_ <? 0 then Z.max (len + end_) 0 else Z.min end_ len in
  take (Z.to_nat (Z.max (final - k) 0)) (drop (Z.to_nat k) l).

(** Truthiness of a string: only the empty string is falsy. *)
Definition truthy (s : string) : bool := negb (String.eqb s "").

(** White space that [parseInt] skips at the start of its input, among
    one-byte characters: tab, line feed, vertical tab, form feed, carriage
    return, space and no-break space. *)
Definition isWhiteSpace (c : ascii) : bool :=
  let n := N_of_ascii c in
  ((n =? 9) || (n =? 10) || (n =? 11) || (n =? 12) || (n =? 13)
   || (n =? 32) || (n =? 160))%N.

Fixpoint trimStart (s : string) : string :=
  match s with
  | EmptyString => EmptyString
  | String c s' => if isWhiteSpace c then trimStart s' else s
  end.

(** The value of a character as a digit: [0]..[9], then [a]..[z] or
    [A]..[Z] for 10..35. *)
Definition digitValue (c : ascii) : option Z :=
  let n := Z.of_N (N_of_ascii c) in
  if (48 <=? n) && (n <=? 57) then Some (n - 48)
  else if (97 <=? n) && (n <=? 122) then Some (n - 87)
  else if (65 <=? n) && (n <=? 90) then Some (n - 55)
  else None.

(** The integer written by the longest prefix of [s] made of digits of the
    radix, continuing from [acc]; [None] when there is no digit at all. *)
Fixpoint digitsValue (radix : Z) (acc : option Z) (s : string) : option Z :=
  match s with
  | EmptyString => acc
  | String c s' =>
      match digitValue c with
      | Some d =>
          if d <? radix
          then digitsValue radix
                 (Some (match acc with Some a => a | None => 0 end * radix + d)) s'
          else acc
      | None => acc
      end
  end.

(** [parseInt(string, radix)]; radix [0] stands for a radix that is not
    given, and [None] for the result [NaN].  Leading white space is
    skipped, one sign is read, a radix outside 2..36 gives [NaN], a [0x]
    prefix switches to radix 16 when the radix is not given or is 16, and
    the digits are read up to the first character that is not one.  The
    value is the exact integer. *)
Definition parseInt (s : string) (radix : Z) : option Z :=
  let s0 := trimStart s in
  let sign := if startsWith s0 "-" then -1 else 1 in
  let s1 := match s0 with
            | String c r => if Ascii.eqb c "-" || Ascii.eqb c "+" then r else s0
            | EmptyString => s0
            end in
  if negb (radix =? 0) && ((radix <? 2) || (36 <? radix)) then None
  else
    let stripPrefix := (radix =? 0) || (radix =? 16) in
    let r10 := if radix =? 0 then 10 else radix in
    let rs := if stripPrefix && (startsWith s1 "0x" || startsWith s1 "0X")
              then (16, match s1 with
                        | String _ (String _ r) => r
                        | _ => s1
                        end)
              else (r10, s1) in
    option_map (Z.mul sign) (digitsValue rs.1 None rs.2).

(** The decimal digits of a natural number. *)
Definition decimal (n : N) : string := NilEmpty.string_of_uint (N.to_uint n).

(** [String(n)], as a template literal applies it, for an integer [n]:
    the decimal digits, after a minus sign when [n] is negative. *)
Definition numberToString (n : Z) : string :=
  if n <? 0 then String "-" (decimal (Z.to_N (- n))) else decimal (Z.to_N n).

End JS.

(** ** The Projects page *)

Module Projects.

Record Project := {
  id : Z;
  name : string;
  description : string;
  repository_url : string;
  language : string;
  status : string;
  created_at : string;
  updated_at : string
}.

Record ProjectFormData := {
  form_name : string;
  form_description : string;
  form_repository_url : string;
  form_language : string
}.

(** The component's [useState] cells. *)
Record State := {
  projects : list Project;
  loading : bool;
  error : option string;
  openDialog : bool;
  editingProject : option Project;
  searchTerm : string;
  languageFilter : string;
  page : Z;
  rowsPerPage : Z;
  formData : ProjectFormData
}.

Definition emptyForm : ProjectFormData :=
  {| form_name := ""; form_description := "";
     form_repository_url := ""; form_language := "" |}.

Definition initial : State :=
  {| projects := []; loading := true; error := None; openDialog := false;
     editingProject := None; searchTerm := ""; languageFilter := "";
     page := 0; rowsPerPage := 10; formData := emptyForm |}.

Definition setProjects (ps : list Project) (s : State) : State :=
  {| projects := ps; loading := loading s; error := error s;
     openDialog := openDialog s; editingProject := editingProject s;
     searchTerm := searchTerm s; languageFilter := languageFilter s;
     page := page s; rowsPerPage := rowsPerPage s; formData := formData s |}.

Definition setLoading (b : bool) (s : State) : State :=
  {| projects := projects s; loading := b; error := error s;
     openDialog := openDialog s; editingProject := editingProject s;
     searchTerm := searchTerm s; languageFilter := languageFilter s;
     page := page s; rowsPerPage := rowsPerPage s; formData := formData s |}.

Definition mockProjects : list Project :=
  [ {| id := 1; name := "User Management API";
       description := "RESTful API for user authentication and management";
       repository_url := "https://github.com/company/user-api";
       language := "Python"; status := "active";
       created_at := "2024-01-10T10:00:00Z";
       updated_at := "2024-01-15T14:30:00Z" |};
    {| id := 2; name := "Payment Gateway";
       description := "Secure payment processing service";
       repository_url := "https://github.com/company/payment-service";
       language := "TypeScript"; status := "active";
       created_at := "2024-01-08T09:00:00Z";
       updated_at := "2024-01-14T16:45:00Z" |};
    {| id := 3; name := "Authentication Service";
       description := "JWT-based authentication microservice";
       repository_url := "https://github.com/company/auth-service";
       language := "Go"; status := "active";
       created_at := "2024-01-05T11:00:00Z";
       updated_at := "2024-01-12T13:20:00Z" |} ].

(** [fetchProjects]: the [try] block only builds a literal and stores it,
    so the [catch] branch is never entered. *)
Definition fetchProjects (s : State) : State :=
  setLoading false (setProjects mockProjects (setLoading true s)).

(** [handleDelete projectId]; [confirmed] is the answer [window.confirm]
    returns.  The filter keeps [p] when [p.id !== projectId]. *)
Definition handleDelete (confirmed : bool) (projectId : Z) (s : State) : State :=
  if confirmed
  then setProjects (filter (fun p => id p <> projectId) (projects s)) s
  else s.

(** The predicate of [projects.filter(...)] in [filteredProjects]. *)
Definition matchesSearch (searchTerm : string) (project : Project) : bool :=
  JS.includes (JS.toLowerCase (name project)) (JS.toLowerCase searchTerm) ||
  JS.includes (JS.toLowerCase (description project)) (JS.toLowerCase searchTerm).

Definition matchesLanguage (languageFilter : string) (project : Project) : bool :=
  negb (JS.truthy languageFilter) || String.eqb (language project) languageFilter.

Definition keeps (s : State) (project : Project) : bool :=
  matchesSearch (searchTerm s) project && matchesLanguage (languageFilter s) project.

Definition filteredProjects (s : State) : list Project :=
  filter (fun p => keeps s p = true) (projects s).

Definition paginatedProjects (s : State) : list Project :=
  JS.slice (filteredProjects s)
           (page s * rowsPerPage s)
           (page s * rowsPerPage s + rowsPerPage s).

(** The table body renders one row per element of [paginatedProjects]. *)
Definition renderedRows (s : State) : list Project := paginatedProjects s.

(** *** The other handlers of the page *)

Definition LANGUAGES : list string :=
  [ "Python"; "JavaScript"; "TypeScript"; "Java"; "C++"; "C#"; "Go"; "Rust";
    "PHP"; "Ruby"; "Swift"; "Kotlin"; "Scala"; "Clojure"; "Elixir" ].

Definition setError (e : option string) (s : State) : State :=
  {| projects := projects s; loading := loading s; error := e;
     openDialog := openDialog s; editingProject := editingProject s;
     searchTerm := searchTerm s; languageFilter := languageFilter s;
     page := page s; rowsPerPage := rowsPerPage s; formData := formData s |}.

Definition setOpenDialog (b : bool) (s : State) : State :=
  {| projects := projects s; loading := loading s; error := error s;
     openDialog := b; editingProject := editingProject s;
     searchTerm := searchTerm s; languageFilter := languageFilter s;
     page := page s; rowsPerPage := rowsPerPage s; formData := formData s |}.

Definition setEditingProject (p : option Project) (s : State) : State :=
  {| projects := projects s; loading := loading s; error := error s;
     openDialog := openDialog s; editingProject := p;
     searchTerm := searchTerm s; languageFilter := languageFilter s;
     page := page s; rowsPerPage := rowsPerPage s; formData := formData s |}.

Definition setSearchTerm (t : string) (s : State) : State :=
  {| projects := projects s; loading := loading s; error := error s;
     openDialog := openDialog s; editingProject := editingProject s;
     searchTerm := t; languageFilter := languageFilter s;
     page := page s; rowsPerPage := rowsPerPage s; formData := formData s |}.

Definition setLanguageFilter (l : string) (s : State) : State :=
  {| projects := projects s; loading := loading s; error := error s;
     openDialog := openDialog s; editingProject := editingProject s;
     searchTerm := searchTerm s; languageFilter := l;
     page := page s; rowsPerPage := rowsPerPage s; formData := formData s |}.

Definition setPage (n : Z) (s : State) : State :=
  {| projects := projects s; loading := loading s; error := error s;
     openDialog := openDialog s; editingProject := editingProject s;
     searchTerm := searchTerm s; languageFilter := languageFilter s;
     page := n; rowsPerPage := rowsPerPage s; formData := formData s |}.

Definition setRowsPerPage (n : Z) (s : State) : State :=
  {| projects := projects s; loading := loading s; error := error s;
     openDialog := openDialog s; editingProject := editingProject s;
     searchTerm := searchTerm s; languageFilter := languageFilter s;
     page := page s; rowsPerPage := n; formData := formData s |}.

Definition setFormData (f : ProjectFormData) (s : State) : State :=
  {| projects := projects s; loading := loading s; error := error s;
     openDialog := openDialog s; editingProject := editingProject s;
     searchTerm := searchTerm s; languageFilter := languageFilter s;
     page := page s; rowsPerPage := rowsPerPage s; formData := f |}.

(** [handleOpenDialog(project?)]: with a project the form is filled from
    it, without one the form is emptied; then the dialog opens. *)
Definition handleOpenDialog (project : option Project) (s : State) : State :=
  match project with
  | Some p =>
      setOpenDialog true
        (setFormData {| form_name := name p; form_description := description p;
                        form_repository_url := repository_url p;
                        form_language := language p |}
           (setEditingProject (Some p) s))
  | None =>
      setOpenDialog true (setFormData emptyForm (setEditingProject None s))
  end.

Definition handleCloseDialog (s : State) : State :=
  setFormData emptyForm (setEditingProject None (setOpenDialog false s)).

(** [handleSubmit]: both branches only log (the requests are commented
    out), then the dialog is closed and the list fetched again. *)
Definition handleSubmit (s : State) : State :=
  fetchProjects (handleCloseDialog s).

(** [handleStartAnalysis projectId]: the path handed to [navigate]. *)
Definition handleStartAnalysis (projectId : Z) : string :=
  "/analysis/" +:+ JS.numberToString projectId.

(** The [onChange] handlers of the search field and the language select,
    and the [onClose] of the error alert. *)
Definition onSearchChange (value : string) (s : State) : State :=
  setSearchTerm value s.

Definition onLanguageFilterChange (value : string) (s : State) : State :=
  setLanguageFilter value s.

Definition onErrorClose (s : State) : State := setError None s.

(** The four form fields: [setFormData({ ...formData, field: value })]. *)
Definition onNameChange (value : string) (s : State) : State :=
  setFormData {| form_name := value;
                 form_description := form_description (formData s);
                 form_repository_url := form_repository_url (formData s);
                 form_language := form_language (formData s) |} s.

Definition onDescriptionChange (value : string) (s : State) : State :=
  setFormData {| form_name := form_name (formData s);
                 form_description := value;
                 form_repository_url := form_repository_url (formData s);
                 form_language := form_language (formData s) |} s.

Definition onRepositoryUrlChange (value : string) (s : State) : State :=
  setFormData {| form_name := form_name (formData s);
                 form_description := form_description (formData s);
                 form_repository_url := value;
                 form_language := form_language (formData s) |} s.

Definition onLanguageChange (value : string) (s : State) : State :=
  setFormData {| form_name := form_name (formData s);
                 form_description := form_description (formData s);
                 form_repository_url := form_repository_url (formData s);
                 form_language := value |} s.

(** The pagination control: the options offered, the count it is given,
    and its two handlers.  [onRowsPerPageChange] parses the selected value
    in radix 10 and goes back to the first page; a value that parses to
    [NaN] is outside the integer states, hence [None]. *)
Definition rowsPerPageOptions : list Z := [5; 10; 25].

Definition paginationCount (s : State) : Z :=
  Z.of_nat (length (filteredProjects s)).

Definition onPageChange (newPage : Z) (s : State) : State := setPage newPage s.

Definition onRowsPerPageChange (value : string) (s : State) : option State :=
  match JS.parseInt value 10 with
  | Some n => Some (setPage 0 (setRowsPerPage n s))
  | None => None
  end.

(** The dialog's title and the label of its submit button. *)
Definition dialogTitle (s : State) : string :=
  match editingProject s with Some _ => "Edit Project" | None => "New Project" end.

Definition submitLabel (s : State) : string :=
  match editingProject s with Some _ => "Update" | None => "Create" end.

End Projects.

(** ** The Dashboard page *)

Module Dashboard.

Record RecentAnalysis := {
  ra_id : Z;
  ra_projectName : string;
  ra_status : string;
  ra_createdAt : string
}.

Record RiskCount := {
  severity : string;
  count : Z;
  color : string
}.

Record LanguageCount := {
  lc_language : string;
  lc_count : Z
}.

Record DashboardStats := {
  totalProjects : Z;
  totalAnalyses : Z;
  totalRisks : Z;
  recentAnalyses : list RecentAnalysis;
  riskBreakdown : list RiskCount;
  languageDistribution : list LanguageCount
}.

Record State := {
  stats : option DashboardStats;
  loading : bool;
  error : option string
}.

Definition initial : State :=
  {| stats := None; loading := true; error := None |}.

Definition setStats (d : DashboardStats) (s : State) : State :=
  {| stats := Some d; loading := loading s; error := error s |}.

Definition setLoading (b : bool) (s : State) : State :=
  {| stats := stats s; loading := b; error := error s |}.

Definition mockData : DashboardStats :=
  {| totalProjects := 12;
     totalAnalyses := 45;
     totalRisks := 8;
     recentAnalyses :=
       [ {| ra_id := 1; ra_projectName := "User Management API";
            ra_status := "completed"; ra_createdAt := "2024-01-15T10:30:00Z" |};
         {| ra_id := 2; ra_projectName := "Payment Gateway";
            ra_status := "running"; ra_createdAt := "2024-01-15T09:15:00Z" |};
         {| ra_id := 3; ra_projectName := "Auth Service";
            ra_status := "completed"; ra_createdAt := "2024-01-15T08:45:00Z" |} ];
     riskBreakdown :=
       [ {| severity := "Critical"; count := 2; color := "#f44336" |};
         {| severity := "High"; count := 3; color := "#ff9800" |};
         {| severity := "Medium"; count := 2; color := "#ffc107" |};
         {| severity := "Low"; count := 1; color := "#4caf50" |} ];
     languageDistribution :=
       [ {| lc_language := "Python"; lc_count := 8 |};
         {| lc_language := "JavaScript"; lc_count := 6 |};
         {| lc_language := "TypeScript"; lc_count := 4 |};
         {| lc_language := "Java"; lc_count := 3 |};
         {| lc_language := "Go"; lc_count := 2 |} ] |}.

(** [fetchDashboardStats]: as in [fetchProjects], nothing in the [try]
    block can throw. *)
Definition fetchDashboardStats (s : State) : State :=
  setLoading false (setStats mockData (setLoading true s)).

(** Sum of the [count] fields of a breakdown. *)
Definition sumCounts (l : list RiskCount) : Z :=
  foldr (fun r acc => count r + acc) 0 l.

(** *** Rendering and navigation *)

(** The colour of the dot in front of a recent analysis. *)
Definition statusDotColor (status : string) : string :=
  if String.eqb status "completed" then "#4caf50" else "#ff9800".

(** What the component returns: the spinner, the error alert with its
    Retry button, nothing at all, or the page with the three cards, one pie
    cell per risk count (its fill), the bars, and one row per recent
    analysis (its dot colour). *)
Inductive View :=
| Spinner
| ErrorAlert (message : string)
| Nothing
| Page (cards : Z * Z * Z) (pieCells : list (RiskCount * string))
       (bars : list LanguageCount) (recent : list (RecentAnalysis * string)).

Definition renderPage (d : DashboardStats) : View :=
  Page (totalProjects d, totalAnalyses d, totalRisks d)
       (map (fun entry => (entry, color entry)) (riskBreakdown d))
       (languageDistribution d)
       (map (fun a => (a, statusDotColor (ra_status a))) (recentAnalyses d)).

Definition render (s : State) : View :=
  if loading s then Spinner
  else
    match error s with
    | Some e =>
        if JS.truthy e then ErrorAlert e
        else match stats s with
             | None => Nothing
             | Some d => renderPage d
             end
    | None =>
        match stats s with
        | None => Nothing
        | Some d => renderPage d
        end
    end.

(** Both buttons of the header navigate to the projects page. *)
Definition handleCreateProject : string := "/projects".
Definition handleStartAnalysis : string := "/projects".

End Dashboard.

(** ** The Analysis page *)

Module Analysis.

(** [severity: 'low' | 'medium' | 'high' | 'critical'] *)
Inductive Severity := low | medium | high | critical.

Definition severityLabel (s : Severity) : string :=
  match s with
  | low => "low" | medium => "medium" | high => "high" | critical => "critical"
  end.

Record Node := {
  node_id : string;
  node_name : string;
  node_type : string;
  node_language : string;
  complexity : Z;
  linesOfCode : Z
}.

Record Edge := {
  source : string;
  target : string;
  type : string;
  weight : Q
}.

Record DependencyGraph := {
  nodes : list Node;
  edges : list Edge
}.

Record Metrics := {
  totalFiles : Z;
  totalLines : Z;
  averageComplexity : Q;
  cyclomaticComplexity : Z;
  maintainabilityIndex : Q;
  technicalDebt : string
}.

Record Risk := {
  risk_id : string;
  risk_severity : Severity;
  risk_title : string;
  risk_description : string;
  risk_file : string;
  risk_line : Z;
  risk_category : string
}.

Record Recommendation := {
  rec_id : string;
  rec_type : string;
  rec_title : string;
  rec_description : string;
  rec_severity : string;
  rec_confidence : Q;
  rec_impactScore : Q;
  rec_effortEstimate : string
}.

Record Results := {
  dependencyGraph : DependencyGraph;
  metrics : Metrics;
  risks : list Risk;
  recommendations : list Recommendation
}.

Record AnalysisData := {
  id : Z;
  projectId : Z;
  projectName : string;
  status : string;
  progress : Z;
  analysisType : string;
  startedAt : string;
  completedAt : option string;
  results : option Results
}.

Record State := {
  analysis : option AnalysisData;
  loading : bool;
  error : option string;
  tabValue : Z
}.

Definition initial : State :=
  {| analysis := None; loading := true; error := None; tabValue := 0 |}.

Definition setAnalysis (a : AnalysisData) (s : State) : State :=
  {| analysis := Some a; loading := loading s; error := error s;
     tabValue := tabValue s |}.

Definition setLoading (b : bool) (s : State) : State :=
  {| analysis := analysis s; loading := b; error := error s;
     tabValue := tabValue s |}.

Definition setTabValue (v : Z) (s : State) : State :=
  {| analysis := analysis s; loading := loading s; error := error s;
     tabValue := v |}.

Definition mockResults : Results :=
  {| dependencyGraph :=
       {| nodes :=
            [ {| node_id := "1"; node_name := "main.py"; node_type := "file";
                 node_language := "python"; complexity := 3; linesOfCode := 45 |};
              {| node_id := "2"; node_name := "auth.py"; node_type := "file";
                 node_language := "python"; complexity := 8; linesOfCode := 120 |};
              {| node_id := "3"; node_name := "models.py"; node_type := "file";
                 node_language := "python"; complexity := 2; linesOfCode := 35 |};
              {| node_id := "4"; node_name := "utils.py"; node_type := "file";
                 node_language := "python"; complexity := 5; linesOfCode := 80 |} ];
          edges :=
            [ {| source := "1"; target := "2"; type := "imports"; weight := 1 |};
              {| source := "1"; target := "3"; type := "imports"; weight := 1 |};
              {| source := "2"; target := "3"; type := "uses"; weight := 0.8 |};
              {| source := "2"; target := "4"; type := "imports"; weight := 1 |} ] |};
     metrics :=
       {| totalFiles := 4;
          totalLines := 280;
          averageComplexity := 4.5;
          cyclomaticComplexity := 18;
          maintainabilityIndex := 75;
          technicalDebt := "medium" |};
     risks :=
       [ {| risk_id := "1"; risk_severity := high;
            risk_title := "High Cyclomatic Complexity";
            risk_description := "The auth.py file has a cyclomatic complexity of 8, which indicates complex logic that may be difficult to maintain.";
            risk_file := "auth.py"; risk_line := 45;
            risk_category := "complexity" |};
         {| risk_id := "2"; risk_severity := medium;
            risk_title := "Large Function";
            risk_description := "The authenticate_user function in auth.py is 45 lines long and handles multiple responsibilities.";
            risk_file := "auth.py"; risk_line := 23;
            risk_category := "maintainability" |} ];
     recommendations :=
       [ {| rec_id := "1"; rec_type := "refactoring";
            rec_title := "Extract Authentication Logic";
            rec_description := "Break down the authenticate_user function into smaller, more focused functions.";
            rec_severity := "medium"; rec_confidence := 0.85;
            rec_impactScore := 0.7; rec_effortEstimate := "medium" |};
         {| rec_id := "2"; rec_type := "security";
            rec_title := "Add Input Validation";
            rec_description := "Implement comprehensive input validation for user credentials.";
            rec_severity := "high"; rec_confidence := 0.9;
            rec_impactScore := 0.8; rec_effortEstimate := "low" |} ] |}.

Definition mockAnalysis (analysisId : Z) : AnalysisData :=
  {| id := analysisId;
     projectId := 1;
     projectName := "User Management API";
     status := "completed";
     progress := 100;
     analysisType := "full";
     startedAt := "2024-01-15T10:30:00Z";
     completedAt := Some "2024-01-15T10:35:00Z";
     results := Some mockResults |}.

(** [fetchAnalysis analysisId]: [setLoading(true)], then the literal is
    stored with [setAnalysis], then [finally] runs [setLoading(false)].
    Nothing in the [try] block throws, so [setError] is never reached. *)
Definition fetchAnalysis (analysisId : Z) (s : State) : State :=
  setLoading false (setAnalysis (mockAnalysis analysisId) (setLoading true s)).

Definition handleTabChange (newValue : Z) (s : State) : State :=
  setTabValue newValue s.

Definition getSeverityColor (severity : string) : string :=
  if String.eqb severity "critical" then "error"
  else if String.eqb severity "high" then "error"
  else if String.eqb severity "medium" then "warning"
  else if String.eqb severity "low" then "info"
  else "default".

(** *** Rendering

    The JSX tree is kept as far as the data it shows: which of the early
    returns is taken, the header chips, whether the progress card is
    there, and the result panel with the content of the selected tab. *)

Record Header := {
  h_projectName : string;
  h_id : Z;
  h_analysisType : string;
  h_statusLabel : string;
  h_statusColor : string;
  h_progress : Z
}.

Record MetricCards := {
  card_totalFiles : Z;
  card_totalLines : Z;
  card_averageComplexity : Q;
  card_maintainability : Q
}.

Inductive CellValue :=
| NumCell (q : Q)
| TextCell (t : string).

Record MetricRow := {
  row_metric : string;
  row_value : CellValue;
  row_chipLabel : string;
  row_chipColor : string
}.

Inductive TabContent :=
| DependenciesTab (ns : list Node)
| RisksTab (rs : list (Risk * string))
| RecommendationsTab (rs : list (Recommendation * string))
| MetricsTab (rows : list MetricRow)
| NoTab.

Record ResultsPanel := {
  cards : MetricCards;
  tab : TabContent
}.

Inductive View :=
| Spinner
| ErrorAlert (message : string)
| NotFound
| Page (header : Header) (progressCard : option Z) (panel : option ResultsPanel).

Definition renderHeader (a : AnalysisData) : Header :=
  {| h_projectName := projectName a;
     h_id := id a;
     h_analysisType := analysisType a;
     h_statusLabel := status a;
     h_statusColor := if String.eqb (status a) "completed" then "success" else "warning";
     h_progress := progress a |}.

Definition renderMetricRows (m : Metrics) : list MetricRow :=
  [ {| row_metric := "Total Files"; row_value := NumCell (inject_Z (totalFiles m));
       row_chipLabel := "Good"; row_chipColor := "success" |};
    {| row_metric := "Total Lines of Code"; row_value := NumCell (inject_Z (totalLines m));
       row_chipLabel := "Good"; row_chipColor := "success" |};
    {| row_metric := "Average Complexity"; row_value := NumCell (averageComplexity m);
       row_chipLabel := if Qlt_le_dec 5 (averageComplexity m) then "High" else "Good";
       row_chipColor := if Qlt_le_dec 5 (averageComplexity m) then "warning" else "success" |};
    {| row_metric := "Cyclomatic Complexity";
       row_value := NumCell (inject_Z (cyclomaticComplexity m));
       row_chipLabel := if 20 <? cyclomaticComplexity m then "High" else "Good";
       row_chipColor := if 20 <? cyclomaticComplexity m then "warning" else "success" |};
    {| row_metric := "Maintainability Index"; row_value := NumCell (maintainabilityIndex m);
       row_chipLabel := if Qlt_le_dec (maintainabilityIndex m) 65 then "Low" else "Good";
       row_chipColor := if Qlt_le_dec (maintainabilityIndex m) 65 then "warning" else "success" |};
    {| row_metric := "Technical Debt"; row_value := TextCell (technicalDebt m);
       row_chipLabel := technicalDebt m;
       row_chipColor := if String.eqb (technicalDebt m) "high" then "error" else "warning" |} ].

(** Each [TabPanel] shows its children only when [value === index]. *)
Definition renderTab (tabValue : Z) (r : Results) : TabContent :=
  if tabValue =? 0 then DependenciesTab (nodes (dependencyGraph r))
  else if tabValue =? 1 then
    RisksTab (map (fun k => (k, getSeverityColor (severityLabel (risk_severity k)))) (risks r))
  else if tabValue =? 2 then
    RecommendationsTab (map (fun k => (k, getSeverityColor (rec_severity k))) (recommendations r))
  else if tabValue =? 3 then MetricsTab (renderMetricRows (metrics r))
  else NoTab.

Definition renderResults (tabValue : Z) (r : Results) : ResultsPanel :=
  {| cards :=
       {| card_totalFiles := totalFiles (metrics r);
          card_totalLines := totalLines (metrics r);
          card_averageComplexity := averageComplexity (metrics r);
          card_maintainability := maintainabilityIndex (metrics r) |};
     tab := renderTab tabValue r |}.

(** The component body after the hooks.  [if (error)] tests truthiness, so
    an empty message does not take the error branch. *)
Definition render (s : State) : View :=
  if loading s then Spinner
  else
    match error s with
    | Some e =>
        if JS.truthy e then ErrorAlert e
        else match analysis s with
             | None => NotFound
             | Some a =>
                 Page (renderHeader a)
                      (if String.eqb (status a) "running" then Some (progress a) else None)
                      (option_map (renderResults (tabValue s)) (results a))
             end
    | None =>
        match analysis s with
        | None => NotFound
        | Some a =>
            Page (renderHeader a)
                 (if String.eqb (status a) "running" then Some (progress a) else None)
                 (option_map (renderResults (tabValue s)) (results a))
        end
    end.

(** What happens to the page over its lifetime: the effect on the route's
    id (or the Retry button) fetches an analysis, or the user selects a
    tab. *)
Inductive PageEvent :=
| Fetch (analysisId : Z)
| SelectTab (newValue : Z).

Definition pageStep (s : State) (ev : PageEvent) : State :=
  match ev with
  | Fetch analysisId => fetchAnalysis analysisId s
  | SelectTab newValue => handleTabChange newValue s
  end.

(** The page states a sequence of events goes through, the first one
    included. *)
Fixpoint pageTrace (s : State) (evs : list PageEvent) : list State :=
  match evs with
  | [] => [s]
  | ev :: evs' => s :: pageTrace (pageStep s ev) evs'
  end.

(** The progress percentage and the status a view puts on screen, in the
    two header chips. *)
Definition shownProgress (v : View) : option (Z * string) :=
  match v with
  | Page h _ _ => Some (h_progress h, h_statusLabel h)
  | _ => None
  end.

(** The result payload a view puts on screen, if any. *)
Definition shownResults (v : View) : option ResultsPanel :=
  match v with
  | Page _ _ p => p
  | _ => None
  end.

(** *** The other functions of the page *)

(** [getSeverityIcon]: the icon component and its [color] prop, if any. *)
Inductive IconKind := ErrorIcon | WarningIcon | InfoIcon.

Record Icon := {
  icon_kind : IconKind;
  icon_color : option string
}.

Definition getSeverityIcon (severity : string) : Icon :=
  if String.eqb severity "critical" then {| icon_kind := ErrorIcon; icon_color := Some "error" |}
  else if String.eqb severity "high" then {| icon_kind := WarningIcon; icon_color := Some "error" |}
  else if String.eqb severity "medium" then {| icon_kind := WarningIcon; icon_color := Some "warning" |}
  else if String.eqb severity "low" then {| icon_kind := InfoIcon; icon_color := Some "info" |}
  else {| icon_kind := InfoIcon; icon_color := None |}.

(** [TabPanel]: the [div] is hidden unless [value === index], and the
    children are rendered only when [value === index]. *)
Record TabPanelView (A : Type) := {
  tp_hidden : bool;
  tp_id : string;
  tp_labelledby : string;
  tp_children : option A
}.
Global Arguments tp_hidden {A} _.
Global Arguments tp_id {A} _.
Global Arguments tp_labelledby {A} _.
Global Arguments tp_children {A} _.

Definition TabPanel {A} (children : A) (value index : Z) : TabPanelView A :=
  {| tp_hidden := negb (value =? index);
     tp_id := "analysis-tabpanel-" +:+ JS.numberToString index;
     tp_labelledby := "analysis-tab-" +:+ JS.numberToString index;
     tp_children := if value =? index then Some children else None |}.

(** The four panels under the tab bar, in the order of the JSX. *)
Definition tabPanels (tabValue : Z) (r : Results) : list (TabPanelView TabContent) :=
  [ TabPanel (DependenciesTab (nodes (dependencyGraph r))) tabValue 0;
    TabPanel (RisksTab (map (fun k => (k, getSeverityColor (severityLabel (risk_severity k))))
                            (risks r))) tabValue 1;
    TabPanel (RecommendationsTab (map (fun k => (k, getSeverityColor (rec_severity k)))
                                      (recommendations r))) tabValue 2;
    TabPanel (MetricsTab (renderMetricRows (metrics r))) tabValue 3 ].

(** The icon in front of each entry of the risk list. *)
Definition riskIcons (r : Results) : list Icon :=
  map (fun k => getSeverityIcon (severityLabel (risk_severity k))) (risks r).

(** The effect on the route parameter: [if (id) fetchAnalysis(parseInt(id))].
    An id that parses to [NaN] is outside the integer ids, hence [None]. *)
Definition routeEffect (id : option string) (s : State) : option State :=
  match id with
  | Some i =>
      if JS.truthy i
      then match JS.parseInt i 0 with
           | Some n => Some (fetchAnalysis n s)
           | None => None
           end
      else Some s
  | None => Some s
  end.

End Analysis.

(** ** The application shell *)

Module App.

(** The three routes of [App]: [/] is the dashboard, [/projects] the
    projects page, [/analysis/:id] the analysis page with its parameter.
    [Escaped] stands for a path that holds a percent escape: the router
    decodes such a path before it matches it and hands out parameters, and
    that decoding is not modelled. *)
Inductive Page :=
| DashboardPage
| ProjectsPage
| AnalysisPage (id : string)
| NoMatch
| Escaped.

Fixpoint hasSlash (s : string) : bool :=
  match s with
  | EmptyString => false
  | String c s' => Ascii.eqb c "/" || hasSlash s'
  end.

Fixpoint hasPercent (s : string) : bool :=
  match s with
  | EmptyString => false
  | String c s' => Ascii.eqb c "%" || hasPercent s'
  end.

(** [s] without the prefix [p], when it starts with it in whatever letter
    case. *)
Fixpoint afterPrefixCI (p s : string) {struct p} : option string :=
  match p, s with
  | EmptyString, _ => Some s
  | String _ _, EmptyString => None
  | String a p', String b s' =>
      if Ascii.eqb (JS.lower_char a) (JS.lower_char b)
      then afterPrefixCI p' s' else None
  end.

(** [s] without the slashes at its end. *)
Fixpoint stripTrailingSlashes (s : string) : string :=
  match s with
  | EmptyString => EmptyString
  | String c s' =>
      match stripTrailingSlashes s' with
      | EmptyString => if Ascii.eqb c "/" then EmptyString else String c EmptyString
      | String _ _ as rest => String c rest
      end
  end.

(** How [Routes] matches a location path against the three route
    patterns, with the router's defaults: the whole path must match,
    letter case is ignored in the fixed segments, slashes at the end are
    ignored, and [:id] takes one non-empty segment, as it is written. *)
Definition matchRoute (path : string) : Page :=
  if hasPercent path then Escaped
  else if negb (JS.startsWith path "/") then NoMatch
  else
    let p := stripTrailingSlashes path in
    if String.eqb p "" then DashboardPage
    else if String.eqb (JS.toLowerCase p) "/projects" then ProjectsPage
    else match afterPrefixCI "/analysis/" p with
         | Some seg =>
             if JS.truthy seg && negb (hasSlash seg) then AnalysisPage seg
             else NoMatch
         | None => NoMatch
         end.

(** Mounting the analysis page on a path: when the path matches the
    analysis route, the page runs its route effect on the parameter.  On
    any other path, and on an escaped one, nothing is said to be
    mounted. *)
Definition mountAnalysis (path : string) (s : Analysis.State) : option Analysis.State :=
  match matchRoute path with
  | AnalysisPage id => Analysis.routeEffect (Some id) s
  | _ => None
  end.

End App.

(** ** The Risk Scorer *)

Module RiskScorer.

Local Open Scope Q_scope.

(** Modelled from the spec: the Risk Scorer component (its source is not
    at hand; the front end only declares the severity type it consumes).
    The weights of the weighted sum are configurable. *)
Record Weights := {
  w_complexity : Q;
  w_inverseMaintainability : Q;
  w_fanIn : Q;
  w_fanOut : Q
}.

(** Modelled from the spec: the default weight set, complexity 0.4,
    inverse maintainability 0.3, fan-in 0.15, fan-out 0.15. *)
Definition defaultWeights : Weights :=
  {| w_complexity := 0.4; w_inverseMaintainability := 0.3;
     w_fanIn := 0.15; w_fanOut := 0.15 |}.

(** Modelled from the spec: the weights are configurable from outside and
    default to the stated set. *)
Definition weightsOf (configured : option Weights) : Weights :=
  default defaultWeights configured.

(** Modelled from the spec: a missing metric defaults to a neutral
    mid-value. *)
Definition neutral : Q := 0.5.

(** Modelled from the spec: the value a feature contributes, the neutral
    one when the metric is missing. *)
Definition metricOr (o : option Q) : Q :=
  match o with Some q => q | None => neutral end.

(** Modelled from the spec: the three types of a dependency edge. *)
Inductive EdgeType := imports | calls | inherits.

(** Modelled from the spec: a graph node with its attributes: stable id,
    language, lines of code, cyclomatic complexity (the count of
    branching constructs plus one; zero on a node for which no count was
    supplied), maintainability index (absent when it was not measured) and
    risk score, absent until the node is scored. *)
Record GraphNode (Id : Type) := {
  gn_id : Id;
  gn_language : string;
  gn_linesOfCode : nat;
  gn_complexity : nat;
  gn_maintainability : option Q;
  gn_risk : option Q
}.
Global Arguments gn_id {Id} _.
Global Arguments gn_language {Id} _.
Global Arguments gn_linesOfCode {Id} _.
Global Arguments gn_complexity {Id} _.
Global Arguments gn_maintainability {Id} _.
Global Arguments gn_risk {Id} _.

(** Modelled from the spec: a directed, typed dependency edge with its
    resolution-confidence weight. *)
Record DependencyEdge (Id : Type) := {
  de_source : Id;
  de_target : Id;
  de_type : EdgeType;
  de_weight : Q
}.
Global Arguments de_source {Id} _.
Global Arguments de_target {Id} _.
Global Arguments de_type {Id} _.
Global Arguments de_weight {Id} _.

(** Modelled from the spec: the in-memory graph the stages transform. *)
Record Graph (Id : Type) := {
  g_nodes : list (GraphNode Id);
  g_edges : list (DependencyEdge Id)
}.
Global Arguments g_nodes {Id} _.
Global Arguments g_edges {Id} _.

(** Modelled from the spec: normalized complexity.  A complexity of zero
    is a missing metric.  The spec names no normalisation; the share of
    the branching constructs in the complexity count is taken, 0 for
    straight-line code and growing with the count. *)
Definition normalizedComplexity (complexity : nat) : option Q :=
  match complexity with
  | O => None
  | S branches => Some (inject_Z (Z.of_nat branches) / inject_Z (Z.of_nat (S branches)))
  end.

(** Modelled from the spec: maintainability, inverted; the index is a
    score out of 100. *)
Definition inverseMaintainability (index : option Q) : option Q :=
  (fun m => (100 - m) / 100) <$> index.

(** Modelled from the spec: a count of edges, as a number. *)
Definition count (n : nat) : Q := inject_Z (Z.of_nat n).

(** Modelled from the spec: severity bucketing, critical from 0.8, high
    from 0.6, medium from 0.35, low otherwise. *)
Definition severityOf (r : Q) : Analysis.Severity :=
  if Qle_bool 0.8 r then Analysis.critical
  else if Qle_bool 0.6 r then Analysis.high
  else if Qle_bool 0.35 r then Analysis.medium
  else Analysis.low.

(** Modelled from the spec: a value brought into [0,1], the range the
    spec fixes for a risk value; a value outside is taken to the nearest
    bound. *)
Definition clamp01 (q : Q) : Q :=
  if Qle_bool q 0 then 0 else if Qle_bool 1 q then 1 else q.

Section Scoring.
Context {Id : Type} `{EqDecision Id}.

(** Modelled from the spec: fan-in, the count of incoming dependency
    edges. *)
Definition fanIn (g : Graph Id) (n : Id) : nat :=
  length (filter (fun e => de_target e = n) (g_edges g)).

(** Modelled from the spec: fan-out, the count of outgoing edges. *)
Definition fanOut (g : Graph Id) (n : Id) : nat :=
  length (filter (fun e => de_source e = n) (g_edges g)).

(** Modelled from the spec: the weighted sum of the four features of a
    node: normalized complexity, inverted maintainability, and the two
    edge counts. *)
Definition weightedSum (w : Weights) (g : Graph Id) (n : GraphNode Id) : Q :=
  w_complexity w * metricOr (normalizedComplexity (gn_complexity n))
  + w_inverseMaintainability w
    * metricOr (inverseMaintainability (gn_maintainability n))
  + w_fanIn w * count (fanIn g (gn_id n))
  + w_fanOut w * count (fanOut g (gn_id n)).

(** Modelled from the spec: the risk value is produced in [0,1] from the
    weighted sum.  The spec asks for that range under every configured
    weight set and any number of edges and names no mechanism; a sum
    outside the range is taken to the nearest bound. *)
Definition riskValue (w : Weights) (g : Graph Id) (n : GraphNode Id) : Q :=
  clamp01 (weightedSum w g n).

(** Modelled from the spec: scoring annotates a node with its risk score
    and leaves its other attributes alone. *)
Definition scoreNode (w : Weights) (g : Graph Id) (n : GraphNode Id)
  : GraphNode Id :=
  {| gn_id := gn_id n; gn_language := gn_language n;
     gn_linesOfCode := gn_linesOfCode n; gn_complexity := gn_complexity n;
     gn_maintainability := gn_maintainability n;
     gn_risk := Some (riskValue w g n) |}.

(** Modelled from the spec: the scoring stage annotates every node of the
    graph; it never fails. *)
Definition scoreRisk (w : Weights) (g : Graph Id) : Graph Id :=
  {| g_nodes := map (scoreNode w g) (g_nodes g); g_edges := g_edges g |}.

(** Modelled from the spec: the severity label of a node is the bucket of
    its risk score. *)
Definition nodeSeverity (n : GraphNode Id) : option Analysis.Severity :=
  severityOf <$> gn_risk n.

End Scoring.

End RiskScorer.

(** ** The Pipeline Orchestrator *)

Module Orchestrator.

(** Modelled from the spec: what the orchestrator files for one source
    file, either a symbol record (with the diagnostics of a recoverable
    parse) or the diagnostic of a file that could not be parsed or timed
    out. *)
Inductive FileOutcome (R D : Type) :=
| Parsed (r : R) (warnings : list D)
| Unparsed (d : D).
Global Arguments Parsed {R D} r warnings.
Global Arguments Unparsed {R D} d.

(** Modelled from the spec: the components the orchestrator stages.  They
    are not among the sources, so they are an interface: the language
    adapter behind the content cache ([parse], a pure function of the
    file), the resolution step of the graph builder ([resolve]), the
    metrics computer, which may raise a stage-fatal error, and the risk
    scorer, which never fails.  Node ids are derived from the unit's path
    and are totally ordered. *)
Class Engine := {
  SourceUnit : Type;
  SymbolRecord : Type;
  Diagnostic : Type;
  Graph : Type;
  FatalError : Type;
  NodeId : Type;
  id_le : relation NodeId;
  id_le_po :: PartialOrder id_le;
  id_le_total :: Total id_le;
  id_le_dec :: RelDecision id_le;
  nodeId : SourceUnit -> NodeId;
  parse : SourceUnit -> FileOutcome SymbolRecord Diagnostic;
  resolve : list (NodeId * SymbolRecord) -> (Graph * list Diagnostic) + FatalError;
  computeMetrics : Graph -> Graph + FatalError;
  scoreRisk : Graph -> Graph
}.

(** Modelled from the spec: the job state machine. *)
Inductive Status :=
| Pending | Parsing | GraphBuilding | MetricComputing | Scoring
| Completed | Cancelled | Failed.

Global Instance Status_eq_dec : EqDecision Status.
Proof. solve_decision. Defined.

(** Modelled from the spec: Completed, Cancelled and Failed are terminal. *)
Definition terminal (st : Status) : bool :=
  match st with
  | Completed | Cancelled | Failed => true
  | _ => false
  end.

Section Model.
Context `{E : Engine}.

Definition Outcome : Type := FileOutcome SymbolRecord Diagnostic.

(** Modelled from the spec: the job record.  [enumerated] tells whether
    the file list has been enumerated (the job was accepted), [slots] is
    the pre-sized result collection indexed by file position,
    [completedCount] the atomic progress counter, [graph] the in-memory
    graph the stages transform, [fatal] the terminal fatal error. *)
Record Job := {
  status : Status;
  enumerated : bool;
  files : list SourceUnit;
  slots : list (option Outcome);
  completedCount : nat;
  graph : option Graph;
  buildDiagnostics : list Diagnostic;
  fatal : option FatalError
}.

(** Modelled from the spec: a submitted job, Pending, before its file list
    is enumerated. *)
Definition fresh : Job :=
  {| status := Pending; enumerated := false; files := []; slots := [];
     completedCount := 0;
     graph := None; buildDiagnostics := []; fatal := None |}.

(** Modelled from the spec: what reaches the orchestrator.  A snapshot
    is accepted, a worker reports the outcome of the file at a position,
    the orchestrator thread moves to the next stage boundary, a fatal
    condition is raised, or the job is cancelled. *)
Inductive Event :=
| Accept (fs : list SourceUnit)
| FileDone (i : nat) (o : Outcome)
| Advance
| Fault (e : FatalError)
| Cancel.

Definition withStatus (st : Status) (j : Job) : Job :=
  {| status := st; enumerated := enumerated j;
     files := files j; slots := slots j;
     completedCount := completedCount j; graph := graph j;
     buildDiagnostics := buildDiagnostics j; fatal := fatal j |}.

(** Modelled from the spec: a stage-fatal error ends the job in Failed,
    records the triggering error, and no partial graph stays valid. *)
Definition failWith (e : FatalError) (j : Job) : Job :=
  {| status := Failed; enumerated := enumerated j;
     files := files j; slots := slots j;
     completedCount := completedCount j; graph := None;
     buildDiagnostics := buildDiagnostics j; fatal := Some e |}.

Definition withGraph (st : Status) (g : Graph) (j : Job) : Job :=
  {| status := st; enumerated := enumerated j;
     files := files j; slots := slots j;
     completedCount := completedCount j; graph := Some g;
     buildDiagnostics := buildDiagnostics j; fatal := fatal j |}.

(** Modelled from the spec: the symbol records of the parsed files,
    each under the node id of its source unit. *)
Definition records (j : Job) : list (NodeId * SymbolRecord) :=
  omap (fun p : SourceUnit * option Outcome =>
          match p.2 with
          | Some (Parsed r _) => Some (nodeId p.1, r)
          | _ => None
          end)
       (zip (files j) (slots j)).

(** Modelled from the spec: the order of the builder's input, by node id. *)
Definition byId : relation (NodeId * SymbolRecord) :=
  fun a b => id_le a.1 b.1.

Global Instance byId_dec : RelDecision byId.
Proof. intros a b. unfold byId. apply _. Defined.

(** Modelled from the spec: the graph builder sorts its input by node
    id before resolution. *)
Definition buildGraph (rs : list (NodeId * SymbolRecord))
  : (Graph * list Diagnostic) + FatalError :=
  resolve (merge_sort byId rs).

(** Modelled from the spec: one transition of the job.  Terminal states
    admit no further mutation; a file outcome is filed once per slot and
    always increments the counter; graph building starts only when
    every file has an outcome; Failed and Cancelled are reachable from
    every other state, and cancellation keeps what was computed. *)
Definition step (j : Job) (ev : Event) : Job :=
  if terminal (status j) then j
  else
    match ev, status j with
    | Accept fs, Pending =>
        {| status := Parsing; enumerated := true; files := fs;
           slots := replicate (length fs) None; completedCount := 0;
           graph := None; buildDiagnostics := []; fatal := None |}
    | FileDone i o, Parsing =>
        match slots j !! i with
        | Some None =>
            {| status := Parsing; enumerated := enumerated j;
               files := files j;
               slots := <[i := Some o]> (slots j);
               completedCount := S (completedCount j);
               graph := graph j; buildDiagnostics := buildDiagnostics j;
               fatal := fatal j |}
        | _ => j
        end
    | Advance, Parsing =>
        if decide (completedCount j = length (slots j))
        then withStatus GraphBuilding j
        else j
    | Advance, GraphBuilding =>
        match buildGraph (records j) with
        | inl (g, ds) =>
            {| status := MetricComputing; enumerated := enumerated j;
               files := files j; slots := slots j;
               completedCount := completedCount j; graph := Some g;
               buildDiagnostics := ds; fatal := fatal j |}
        | inr e => failWith e j
        end
    | Advance, MetricComputing =>
        match graph j with
        | Some g =>
            match computeMetrics g with
            | inl g' => withGraph Scoring g' j
            | inr e => failWith e j
            end
        | None => j
        end
    | Advance, Scoring =>
        match graph j with
        | Some g => withGraph Completed (scoreRisk g) j
        | None => j
        end
    | Fault e, _ => failWith e j
    | Cancel, _ => withStatus Cancelled j
    | _, _ => j
    end.

(** Modelled from the spec: the job after a sequence of events. *)
Definition run (j : Job) (evs : list Event) : Job := foldl step j evs.

(** The jobs a run goes through, the starting one first. *)
Fixpoint trace (j : Job) (evs : list Event) : list Job :=
  match evs with
  | [] => [j]
  | ev :: evs' => j :: trace (step j ev) evs'
  end.

(** Modelled from the spec: progress is the parsed-file count over the
    total file count, surfaced as an integer percentage.  Before the
    file list is enumerated nothing has been parsed, so the progress is
    0; a parsing stage over no files has every file parsed as soon as
    the list is enumerated, so its progress is 100. *)
Definition percentage (j : Job) : nat :=
  if enumerated j then
    match length (slots j) with
    | O => 100
    | S _ as total => (100 * completedCount j) `div` total
    end
  else 0.

(** Modelled from the spec: the diagnostics list, the per-file ones in
    file order followed by those of graph building. *)
Definition fileDiagnostics (o : option Outcome) : list Diagnostic :=
  match o with
  | Some (Parsed _ ws) => ws
  | Some (Unparsed d) => [d]
  | None => []
  end.

Definition diagnostics (j : Job) : list Diagnostic :=
  concat (map fileDiagnostics (slots j)) ++ buildDiagnostics j.

(** Modelled from the spec: [getStatus] and [getResult]. *)
Definition getStatus (j : Job) : Status * nat * list Diagnostic :=
  (status j, percentage j, diagnostics j).

Definition getResult (j : Job) : option Graph :=
  match status j with
  | Completed => graph j
  | _ => None
  end.

(** The number of file positions that have an outcome. *)
Definition filledCount (j : Job) : nat :=
  length (filter (fun o : option Outcome => is_Some o) (slots j)).

(** The file list is enumerated on acceptance: a Pending job has none,
    a job in a later stage has one, and a job that failed or was
    cancelled keeps what it had. *)
Definition enumeratedOk (j : Job) : Prop :=
  match status j with
  | Pending => enumerated j = false
  | Parsing | GraphBuilding | MetricComputing | Scoring | Completed =>
      enumerated j = true
  | Failed | Cancelled => True
  end.

(** The shape every job record reachable from [fresh] has: the file list
    enumerated on acceptance, one slot per file, the counter equal to the
    number of filed outcomes, and per status what the record holds. *)
Definition consistent (j : Job) : Prop :=
  (enumeratedOk j /\ length (slots j) = length (files j)) /\
  completedCount j = filledCount j /\
  match status j with
  | Pending => slots j = [] /\ graph j = None /\ fatal j = None
  | Parsing => graph j = None /\ fatal j = None
  | GraphBuilding =>
      completedCount j = length (slots j) /\ graph j = None /\ fatal j = None
  | MetricComputing | Scoring | Completed =>
      completedCount j = length (slots j) /\ is_Some (graph j) /\ fatal j = None
  | Failed => graph j = None /\ is_Some (fatal j)
  | Cancelled => fatal j = None
  end.

(** Modelled from the spec: a whole job over [fs] in which the workers
    finish the file positions in the order [schedule]; however many
    workers the pool has, they only decide that order. *)
Definition workerEvents (fs : list SourceUnit) (schedule : list nat) : list Event :=
  omap (fun i => (fun u => FileDone i (parse u)) <$> fs !! i) schedule.

Definition pipeline (fs : list SourceUnit) (schedule : list nat) : Job :=
  run fresh (Accept fs :: workerEvents fs schedule
               ++ [Advance; Advance; Advance; Advance]).

(** Modelled from the spec: every file gets a terminal outcome, that is,
    the schedule names every position. *)
Definition covers (schedule : list nat) (fs : list SourceUnit) : Prop :=
  forall i, (i < length fs)%nat -> i ∈ schedule.

(** The file at position [i] has its outcome filed. *)
Definition filledAt (j : Job) (i : nat) : Prop :=
  exists o, slots j !! i = Some (Some o).

(** A job in the Parsing stage over [fs] whose filed outcomes are those
    of the language adapter. *)
Definition parsingOver (fs : list SourceUnit) (j : Job) : Prop :=
  status j = Parsing /\ enumerated j = true /\ files j = fs /\ graph j = None /\
  buildDiagnostics j = [] /\ fatal j = None /\
  length (slots j) = length fs /\
  forall i o, slots j !! i = Some (Some o) ->
              exists u, fs !! i = Some u /\ o = parse u.

(** The job over [fs] at the end of the Parsing stage: every slot holds
    the adapter's outcome for its file. *)
Definition parsedJob (fs : list SourceUnit) : Job :=
  {| status := Parsing; enumerated := true; files := fs;
     slots := (fun u => Some (parse u)) <$> fs;
     completedCount := length fs;
     graph := None; buildDiagnostics := []; fatal := None |}.

(** The graph builder's input for [fs]. *)
Definition recordsOf (fs : list SourceUnit) : list (NodeId * SymbolRecord) :=
  omap (fun u => match parse u with
                 | Parsed r _ => Some (nodeId u, r)
                 | Unparsed _ => None
                 end) fs.

(** What the three stages after parsing make of the builder's input:
    final status, graph, builder diagnostics and fatal error. *)
Definition stagesResult (rs : list (NodeId * SymbolRecord))
  : Status * option Graph * list Diagnostic * option FatalError :=
  match buildGraph rs with
  | inl (g, ds) =>
      match computeMetrics g with
      | inl g' => (Completed, Some (scoreRisk g'), ds, None)
      | inr e => (Failed, None, ds, Some e)
      end
  | inr e => (Failed, None, [], Some e)
  end.

End Model.

End Orchestrator.

(** ** The pipeline with the formula-based Risk Scorer *)

Module ScoringEngine.

(** Modelled from the spec: the stages before scoring, over the graph of
    nodes and edges: the language adapter, the resolution step of the
    graph builder and the metrics computer.  They are not among the
    sources, so they are an interface. *)
Class Stages := {
  SourceUnit : Type;
  SymbolRecord : Type;
  Diagnostic : Type;
  FatalError : Type;
  NodeId : Type;
  id_eq :: EqDecision NodeId;
  id_le : relation NodeId;
  id_le_po :: PartialOrder id_le;
  id_le_total :: Total id_le;
  id_le_dec :: RelDecision id_le;
  nodeId : SourceUnit -> NodeId;
  parse : SourceUnit -> Orchestrator.FileOutcome SymbolRecord Diagnostic;
  resolve : list (NodeId * SymbolRecord)
            -> (RiskScorer.Graph NodeId * list Diagnostic) + FatalError;
  computeMetrics : RiskScorer.Graph NodeId -> RiskScorer.Graph NodeId + FatalError
}.

(** Modelled from the spec: the engine whose scoring stage is the
    formula-based Risk Scorer under the configured weights. *)
Definition engine (S : Stages) (configured : option RiskScorer.Weights)
  : Orchestrator.Engine :=
  {| Orchestrator.SourceUnit := SourceUnit;
     Orchestrator.SymbolRecord := SymbolRecord;
     Orchestrator.Diagnostic := Diagnostic;
     Orchestrator.Graph := RiskScorer.Graph NodeId;
     Orchestrator.FatalError := FatalError;
     Orchestrator.NodeId := NodeId;
     Orchestrator.id_le := id_le;
     Orchestrator.nodeId := nodeId;
     Orchestrator.parse := parse;
     Orchestrator.resolve := resolve;
     Orchestrator.computeMetrics := computeMetrics;
     Orchestrator.scoreRisk := RiskScorer.scoreRisk (RiskScorer.weightsOf configured) |}.

End ScoringEngine.

(** ** The properties, as predicates *)

Module Props.

(** [text] contains [term], compared without regard to letter case. *)
Definition containsCI (text term : string) : Prop :=
  exists pre suf : string,
    JS.toLowerCase text = (pre +:+ JS.toLowerCase term +:+ suf).

(** A project row satisfies the search term and the language filter. *)
Definition satisfiesFilters (searchTerm languageFilter : string)
    (p : Projects.Project) : Prop :=
  (containsCI (Projects.name p) searchTerm \/
   containsCI (Projects.description p) searchTerm) /\
  (languageFilter <> "" -> Projects.language p = languageFilter).

(** [qs] is [ps] with exactly the entries of id [pid] taken out, the
    others kept as they are and in their order. *)
Inductive DeletedFrom (pid : Z) :
    list Projects.Project -> list Projects.Project -> Prop :=
| deleted_nil : DeletedFrom pid [] []
| deleted_drop p ps qs :
    Projects.id p = pid -> DeletedFrom pid ps qs -> DeletedFrom pid (p :: ps) qs
| deleted_keep p ps qs :
    Projects.id p <> pid -> DeletedFrom pid ps qs ->
    DeletedFrom pid (p :: ps) (p :: qs).

(** The edge types the data model names. *)
Definition declaredEdgeTypes : list string := ["imports"; "calls"; "inherits"].

(** An edge is well-formed over a set of allowed types. *)
Definition wellFormedEdge (allowed : list string) (e : Analysis.Edge) : Prop :=
  Analysis.type e ∈ allowed /\
  (0 <= Analysis.weight e)%Q /\ (Analysis.weight e <= 1)%Q /\
  Analysis.source e <> Analysis.target e.

(** The edges of the result a page state holds. *)
Definition resultEdges (s : Analysis.State) : list Analysis.Edge :=
  match Analysis.analysis s with
  | Some a =>
      match Analysis.results a with
      | Some r => Analysis.edges (Analysis.dependencyGraph r)
      | None => []
      end
  | None => []
  end.

(** Result content is on screen only for a completed job. *)
Definition resultsOnlyWhenCompleted (s : Analysis.State) : Prop :=
  Analysis.shownResults (Analysis.render s) <> None ->
  exists a, Analysis.analysis s = Some a /\ Analysis.status a = "completed".

(** The severity thresholds. *)
Definition severityMatches (r : Q) (sev : Analysis.Severity) : Prop :=
  match sev with
  | Analysis.critical => (0.8 <= r)%Q
  | Analysis.high => (0.6 <= r)%Q /\ (r < 0.8)%Q
  | Analysis.medium => (0.35 <= r)%Q /\ (r < 0.6)%Q
  | Analysis.low => (r < 0.35)%Q
  end.

End Props.

(** ** Concrete inputs used by the examples *)

Module Examples.

(** The Projects page after loading, searching for "API" among Python
    projects, first page, five rows per page. *)
Definition searchingProjects : Projects.State :=
  {| Projects.projects := Projects.mockProjects;
     Projects.loading := false; Projects.error := None;
     Projects.openDialog := false; Projects.editingProject := None;
     Projects.searchTerm := "API"; Projects.languageFilter := "Python";
     Projects.page := 0; Projects.rowsPerPage := 5;
     Projects.formData := Projects.emptyForm |}.

(** An analysis that is still running but already carries results. *)
Definition runningAnalysis : Analysis.AnalysisData :=
  {| Analysis.id := 7;
     Analysis.projectId := 1;
     Analysis.projectName := "User Management API";
     Analysis.status := "running";
     Analysis.progress := 50;
     Analysis.analysisType := "full";
     Analysis.startedAt := "2024-01-15T10:30:00Z";
     Analysis.completedAt := None;
     Analysis.results := Some Analysis.mockResults |}.

(** The Analysis page holding that analysis, loaded and without error. *)
Definition runningPage : Analysis.State :=
  {| Analysis.analysis := Some runningAnalysis;
     Analysis.loading := false;
     Analysis.error := None;
     Analysis.tabValue := 0 |}.

(** A small engine for the examples.  A source unit is a node id with,
    when its content is readable, the ids it imports; an unreadable unit
    yields a diagnostic.  Resolution keeps an import of a known other node
    as an edge, reports an import of an unknown node, drops self-edges,
    and refuses input in which two records carry one node id. *)
Definition ToyUnit : Type := nat * option (list nat).

Definition toyParse (u : ToyUnit) : Orchestrator.FileOutcome (list nat) string :=
  match u.2 with
  | Some imports => Orchestrator.Parsed imports []
  | None => Orchestrator.Unparsed "unreadable content"
  end.

Definition toyEdges (rs : list (nat * list nat)) : list (nat * nat) :=
  flat_map (fun r : nat * list nat =>
              map (fun t => (r.1, t))
                  (filter (fun t => t ∈ rs.*1 /\ t <> r.1) r.2)) rs.

Definition toyUnresolved (rs : list (nat * list nat)) : list string :=
  flat_map (fun r : nat * list nat =>
              map (fun _ => "unresolved-reference")
                  (filter (fun t => t ∉ rs.*1) r.2)) rs.

Definition toyResolve (rs : list (nat * list nat))
  : (list (nat * nat) * list string) + string :=
  if decide (NoDup rs.*1) then inl (toyEdges rs, toyUnresolved rs)
  else inr "duplicate node id".

Definition toyEngine : Orchestrator.Engine :=
  {| Orchestrator.SourceUnit := ToyUnit;
     Orchestrator.SymbolRecord := list nat;
     Orchestrator.Diagnostic := string;
     Orchestrator.Graph := list (nat * nat);
     Orchestrator.FatalError := string;
     Orchestrator.NodeId := nat;
     Orchestrator.id_le := le;
     Orchestrator.nodeId := fst;
     Orchestrator.parse := toyParse;
     Orchestrator.resolve := toyResolve;
     Orchestrator.computeMetrics := inl;
     Orchestrator.scoreRisk := fun g => g |}.

(** [a] (node 1) imports [b] (node 2); [b] imports nothing. *)
Definition unitA : ToyUnit := (1%nat, Some [2%nat]).
Definition unitB : ToyUnit := (2%nat, Some []).
(** A second file that claims node id 1. *)
Definition unitA' : ToyUnit := (1%nat, Some []).
(** A file whose content cannot be read. *)
Definition unitBinary : ToyUnit := (3%nat, None).

(** A complete run over [a] and [b]: accepted, both files reported (the
    second position first), then the four stage boundaries. *)
Definition completedRun : list (@Orchestrator.Event toyEngine) :=
  [ Orchestrator.Accept (E := toyEngine) [unitA; unitB];
    Orchestrator.FileDone (E := toyEngine) 1 (toyParse unitB);
    Orchestrator.FileDone (E := toyEngine) 0 (toyParse unitA);
    Orchestrator.Advance; Orchestrator.Advance;
    Orchestrator.Advance; Orchestrator.Advance ].

(** A complete run over a snapshot with no files: accepted, then the four
    stage boundaries. *)
Definition emptyRun : list (@Orchestrator.Event toyEngine) :=
  [ Orchestrator.Accept (E := toyEngine) [];
    Orchestrator.Advance; Orchestrator.Advance;
    Orchestrator.Advance; Orchestrator.Advance ].

(** A run that fails in graph building: two files with one node id. *)
Definition failedRun : list (@Orchestrator.Event toyEngine) :=
  [ Orchestrator.Accept (E := toyEngine) [unitA; unitA'];
    Orchestrator.FileDone (E := toyEngine) 0 (toyParse unitA);
    Orchestrator.FileDone (E := toyEngine) 1 (toyParse unitA');
    Orchestrator.Advance; Orchestrator.Advance ].

(** The stages of the small engine over the graph of nodes and edges: a
    node per record, of complexity one more than the number of its
    imports and with no maintainability measured, and an imports edge of
    weight 1 per resolved import. *)
Definition toyNode (r : nat * list nat) : RiskScorer.GraphNode nat :=
  {| RiskScorer.gn_id := r.1; RiskScorer.gn_language := "python";
     RiskScorer.gn_linesOfCode := length r.2;
     RiskScorer.gn_complexity := S (length r.2);
     RiskScorer.gn_maintainability := None; RiskScorer.gn_risk := None |}.

Definition toyEdge (p : nat * nat) : RiskScorer.DependencyEdge nat :=
  {| RiskScorer.de_source := p.1; RiskScorer.de_target := p.2;
     RiskScorer.de_type := RiskScorer.imports; RiskScorer.de_weight := 1 |}.

Definition toyBuild (rs : list (nat * list nat))
  : (RiskScorer.Graph nat * list string) + string :=
  if decide (NoDup rs.*1)
  then inl ({| RiskScorer.g_nodes := map toyNode rs;
               RiskScorer.g_edges := map toyEdge (toyEdges rs) |},
            toyUnresolved rs)
  else inr "duplicate node id".

Definition toyStages : ScoringEngine.Stages :=
  {| ScoringEngine.SourceUnit := ToyUnit;
     ScoringEngine.SymbolRecord := list nat;
     ScoringEngine.Diagnostic := string;
     ScoringEngine.FatalError := string;
     ScoringEngine.NodeId := nat;
     ScoringEngine.id_le := le;
     ScoringEngine.nodeId := fst;
     ScoringEngine.parse := toyParse;
     ScoringEngine.resolve := toyBuild;
     ScoringEngine.computeMetrics := inl |}.

(** A complete run over [a] and [b] of the engine that scores with the
    default weights. *)
Definition scoredRun
  : list (@Orchestrator.Event (ScoringEngine.engine toyStages None)) :=
  [ Orchestrator.Accept (E := ScoringEngine.engine toyStages None) [unitA; unitB];
    Orchestrator.FileDone (E := ScoringEngine.engine toyStages None) 0 (toyParse unitA);
    Orchestrator.FileDone (E := ScoringEngine.engine toyStages None) 1 (toyParse unitB);
    Orchestrator.Advance; Orchestrator.Advance;
    Orchestrator.Advance; Orchestrator.Advance ].

(** One project snapshot enumerated in two orders, and two orders in
    which workers may finish its three files (the first one reports a
    position twice). *)
Definition unitsOne : list ToyUnit := [unitA; unitBinary; unitB].
Definition unitsTwo : list ToyUnit := [unitA; unitB; unitBinary].
Definition scheduleOne : list nat := [2; 0; 1; 1]%nat.
Definition scheduleTwo : list nat := [0; 1; 2]%nat.

(** The Analysis page after a failed load. *)
Definition failedPage : Analysis.State :=
  {| Analysis.analysis := Some (Analysis.mockAnalysis 1);
     Analysis.loading := false;
     Analysis.error := Some "Failed to load analysis data";
     Analysis.tabValue := 0 |}.

(** The Projects page after loading, two rows per page, no filter. *)
Definition twoPerPage : Projects.State :=
  {| Projects.projects := Projects.mockProjects;
     Projects.loading := false; Projects.error := None;
     Projects.openDialog := false; Projects.editingProject := None;
     Projects.searchTerm := ""; Projects.languageFilter := "";
     Projects.page := 0; Projects.rowsPerPage := 2;
     Projects.formData := Projects.emptyForm |}.

(** The same page turned to its second page. *)
Definition secondPage : Projects.State := Projects.onPageChange 1 twoPerPage.

(** The first project of the list. *)
Definition userApi : Projects.Project :=
  {| Projects.id := 1; Projects.name := "User Management API";
     Projects.description := "RESTful API for user authentication and management";
     Projects.repository_url := "https://github.com/company/user-api";
     Projects.language := "Python"; Projects.status := "active";
     Projects.created_at := "2024-01-10T10:00:00Z";
     Projects.updated_at := "2024-01-15T14:30:00Z" |}.

(** The Dashboard after a failed load. *)
Definition failedDashboard : Dashboard.State :=
  {| Dashboard.stats := None; Dashboard.loading := false;
     Dashboard.error := Some "Failed to load dashboard data" |}.

End Examples.

(** ** Notions used by the further properties *)

Module Notions.

(** The integer a sequence of decimal digits writes, continuing from [acc]. *)
Fixpoint uintValue (acc : Z) (d : Decimal.uint) : Z :=
  match d with
  | Decimal.Nil => acc
  | Decimal.D0 d => uintValue (acc * 10 + 0) d
  | Decimal.D1 d => uintValue (acc * 10 + 1) d
  | Decimal.D2 d => uintValue (acc * 10 + 2) d
  | Decimal.D3 d => uintValue (acc * 10 + 3) d
  | Decimal.D4 d => uintValue (acc * 10 + 4) d
  | Decimal.D5 d => uintValue (acc * 10 + 5) d
  | Decimal.D6 d => uintValue (acc * 10 + 6) d
  | Decimal.D7 d => uintValue (acc * 10 + 7) d
  | Decimal.D8 d => uintValue (acc * 10 + 8) d
  | Decimal.D9 d => uintValue (acc * 10 + 9) d
  end.

(** [rest] is empty or starts with a character that is not a decimal
    digit: reading decimal digits stops in front of it. *)
Definition stopsDecimal (rest : string) : bool :=
  match rest with
  | EmptyString => true
  | String c _ =>
      match JS.digitValue c with
      | Some v => negb (v <? 10)
      | None => true
      end
  end.

(** [rest] does not start with the letter of a hexadecimal prefix. *)
Definition noHexMark (rest : string) : bool :=
  negb (JS.startsWith rest "x" || JS.startsWith rest "X").

(** [s] starts with a decimal digit. *)
Definition headDigit (s : string) : bool :=
  match s with
  | EmptyString => false
  | String c _ => ((48 <=? N_of_ascii c) && (N_of_ascii c <=? 57))%N
  end.

(** [s] does not start with a hexadecimal prefix. *)
Definition noHexPrefix (s : string) : bool :=
  negb (JS.startsWith s "0x" || JS.startsWith s "0X").

(** The integers a JavaScript number holds exactly. *)
Definition safeInteger (n : Z) : Prop := Z.abs n <= 9007199254740991.

(** What the user can do to the fields of the project form. *)
Inductive FormEdit :=
| EditName (v : string)
| EditDescription (v : string)
| EditRepositoryUrl (v : string)
| EditLanguage (v : string).

Definition applyEdit (s : Projects.State) (e : FormEdit) : Projects.State :=
  match e with
  | EditName v => Projects.onNameChange v s
  | EditDescription v => Projects.onDescriptionChange v s
  | EditRepositoryUrl v => Projects.onRepositoryUrlChange v s
  | EditLanguage v => Projects.onLanguageChange v s
  end.

(** The rows of page [p] of a state. *)
Definition pageRows (s : Projects.State) (p : nat) : list Projects.Project :=
  Projects.renderedRows (Projects.onPageChange (Z.of_nat p) s).

(** The children the tab panels actually render. *)
Definition visibleTabs (panels : list (Analysis.TabPanelView Analysis.TabContent))
  : list Analysis.TabContent :=
  omap Analysis.tp_children panels.

(** The four severity labels the page knows. *)
Definition knownSeverity (x : string) : Prop :=
  x = "critical" \/ x = "high" \/ x = "medium" \/ x = "low".

(** What the Analysis page holds at any time after it mounted: no error,
    and either still loading without data, or loaded with the data of some
    analysis id. *)
Definition settled (s : Analysis.State) : Prop :=
  Analysis.error s = None /\
  ((Analysis.loading s = true /\ Analysis.analysis s = None) \/
   (Analysis.loading s = false /\
    exists i, Analysis.analysis s = Some (Analysis.mockAnalysis i))).

(** A sequence of page events contains a fetch. *)
Definition fetches (evs : list Analysis.PageEvent) : Prop :=
  exists i, Analysis.Fetch i ∈ evs.

(** The Analysis page after a sequence of events. *)
Definition pageRun (s : Analysis.State) (evs : list Analysis.PageEvent)
  : Analysis.State :=
  foldl Analysis.pageStep s evs.

End Notions.

(** ** Facts about the built-ins *)

Section JSFacts.

Lemma startsWith_spec (s p : string) :
  JS.startsWith s p = true <-> exists suf, s = (p +:+ suf).
Proof.
  revert s. induction p as [|a p IH]; intros s; simpl.
  - split; [intros _; by exists s | done].
  - destruct s as [|b s].
    + split; [done | intros [suf Hs]; discriminate].
    + rewrite andb_true_iff, Ascii.eqb_eq, IH. split.
      * intros [-> [suf ->]]. by exists suf.
      * intros [suf Hs]. injection Hs as -> ->. eauto.
Qed.

Lemma includes_spec (s t : string) :
  JS.includes s t = true <-> exists pre suf, s = (pre +:+ t +:+ suf).
Proof.
  induction s as [|c s IH]; simpl.
  - rewrite orb_false_r, startsWith_spec. split.
    + intros [suf Hs]. by exists EmptyString, suf.
    + intros [pre [suf Hs]]. destruct pre; [by exists suf | discriminate].
  - rewrite orb_true_iff, startsWith_spec, IH. split.
    + intros [[suf Hs] | [pre [suf Hs]]].
      * by exists EmptyString, suf.
      * exists (String c pre), suf. simpl. by rewrite Hs.
    + intros [pre [suf Hs]]. destruct pre as [|d pre]; simpl in Hs.
      * left. by exists suf.
      * right. injection Hs as -> ->. by exists pre, suf.
Qed.

Lemma slice_sublist {A} (l : list A) (a b : Z) : JS.slice l a b `sublist_of` l.
Proof.
  unfold JS.slice. etransitivity; [apply sublist_take | apply sublist_drop].
Qed.

Lemma slice_length {A} (l : list A) (a b : Z) :
  0 <= b - a -> Z.of_nat (length (JS.slice l a b)) <= b - a.
Proof.
  intros Hab. unfold JS.slice. rewrite length_take, length_drop.
  destruct (Z.ltb_spec a 0), (Z.ltb_spec b 0); lia.
Qed.

Lemma truthy_spec (s : string) : JS.truthy s = true <-> s <> "".
Proof.
  unfold JS.truthy. rewrite negb_true_iff. split.
  - intros Hs ->. by rewrite String.eqb_refl in Hs.
  - intros Hs. by apply String.eqb_neq.
Qed.

End JSFacts.

(** ** The Projects page *)

Section ProjectsFacts.

Import Projects.

Lemma keeps_satisfies (s : State) (p : Project) :
  keeps s p = true -> Props.satisfiesFilters (searchTerm s) (languageFilter s) p.
Proof.
  unfold keeps, matchesSearch, matchesLanguage, Props.satisfiesFilters.
  rewrite andb_true_iff, !orb_true_iff, !includes_spec.
  intros [Hsearch Hlang]. split; [exact Hsearch|].
  intros Hne. destruct Hlang as [Hfalsy | Heq].
  - apply negb_true_iff in Hfalsy. apply truthy_spec in Hne. congruence.
  - by apply String.eqb_eq.
Qed.

Lemma filteredProjects_satisfy (s : State) :
  Forall (Props.satisfiesFilters (searchTerm s) (languageFilter s))
         (filteredProjects s).
Proof.
  apply Forall_forall. intros p Hp.
  apply list_elem_of_filter in Hp as [Hk _]. by apply keeps_satisfies.
Qed.

Lemma filter_DeletedFrom (pid : Z) (ps : list Project) :
  Props.DeletedFrom pid ps (filter (fun p => id p <> pid) ps).
Proof.
  induction ps as [|p ps IH]; [constructor|].
  destruct (decide (id p = pid)) as [Heq | Hne].
  - rewrite filter_cons_False by naive_solver. by constructor.
  - rewrite filter_cons_True by done. by constructor.
Qed.

Lemma DeletedFrom_functional (pid : Z) (ps qs qs' : list Project) :
  Props.DeletedFrom pid ps qs -> Props.DeletedFrom pid ps qs' -> qs = qs'.
Proof.
  intros Hd. revert qs'.
  induction Hd; intros qs' Hd'; inversion Hd'; subst; try done; f_equal; auto.
Qed.

End ProjectsFacts.

(** C8: whatever the search term, the language filter, the page index and
    the rows-per-page setting (a row count, so not negative), every project
    row the table renders satisfies both filters, its name or description
    containing the search term without regard to case and its language
    being the filter when the filter is not empty, and the table renders at
    most rowsPerPage rows.  The rendered rows are moreover entries of the
    project list, in their order. *)
Theorem C8_rendered_rows_pass_filters_and_fit_page (s : Projects.State) :
  0 <= Projects.rowsPerPage s ->
  Forall (Props.satisfiesFilters (Projects.searchTerm s) (Projects.languageFilter s))
         (Projects.renderedRows s) /\
  Z.of_nat (length (Projects.renderedRows s)) <= Projects.rowsPerPage s /\
  Projects.renderedRows s `sublist_of` Projects.projects s.
Proof.
  intros Hrows. unfold Projects.renderedRows, Projects.paginatedProjects.
  split; [|split].
  - apply Forall_forall. intros p Hp.
    eapply Forall_forall; [apply filteredProjects_satisfy|].
    eapply sublist_subseteq; [apply slice_sublist | exact Hp].
  - etransitivity; [apply slice_length|]; lia.
  - etransitivity; [apply slice_sublist | apply sublist_filter].
Qed.

(** C8 on the loaded page, searching "API" among Python projects with five
    rows per page. *)
Lemma C8_rendered_rows_witness :
  0 <= Projects.rowsPerPage Examples.searchingProjects /\
  Forall (Props.satisfiesFilters "API" "Python")
         (Projects.renderedRows Examples.searchingProjects) /\
  Z.of_nat (length (Projects.renderedRows Examples.searchingProjects)) <= 5 /\
  Projects.renderedRows Examples.searchingProjects `sublist_of` Projects.mockProjects.
Proof.
  split; [simpl; lia|].
  apply (C8_rendered_rows_pass_filters_and_fit_page Examples.searchingProjects).
  simpl. lia.
Defined.

(** C9: deleting a project id, once the user has confirmed, takes out of
    the project list exactly the entries with that id; every other entry
    stays as it is and the remaining entries keep their relative order; no
    other cell of the page state changes.  When the user declines, the
    state, and with it the list, is unchanged. *)
Theorem C9_handleDelete_removes_exactly_the_id (pid : Z) (s : Projects.State) :
  let s' := Projects.handleDelete true pid s in
  Props.DeletedFrom pid (Projects.projects s) (Projects.projects s') /\
  (forall qs, Props.DeletedFrom pid (Projects.projects s) qs -> qs = Projects.projects s') /\
  Projects.projects s' `sublist_of` Projects.projects s /\
  (forall p, p ∈ Projects.projects s' <-> p ∈ Projects.projects s /\ Projects.id p <> pid) /\
  s' = Projects.setProjects (Projects.projects s') s /\
  Projects.handleDelete false pid s = s.
Proof.
  simpl. split; [apply filter_DeletedFrom|]. split.
  { intros qs Hqs.
    eapply DeletedFrom_functional; [exact Hqs | apply filter_DeletedFrom]. }
  split; [apply sublist_filter|]. split; [|done].
  intros p. rewrite list_elem_of_filter. tauto.
Qed.

(** C10: in the statistics fetchDashboardStats stores, the per-severity
    counts of riskBreakdown add up to totalRisks. *)
Theorem C10_riskBreakdown_sums_to_totalRisks (s : Dashboard.State) :
  exists d, Dashboard.stats (Dashboard.fetchDashboardStats s) = Some d /\
            Dashboard.sumCounts (Dashboard.riskBreakdown d) = Dashboard.totalRisks d.
Proof. exists Dashboard.mockData. split; reflexivity. Qed.

(** ** The Analysis page *)

Section AnalysisFacts.

Import Analysis.

Lemma fetchAnalysis_analysis (analysisId : Z) (s : State) :
  analysis (fetchAnalysis analysisId s) = Some (mockAnalysis analysisId).
Proof. reflexivity. Qed.

Lemma fetchAnalysis_frame (analysisId : Z) (s : State) :
  loading (fetchAnalysis analysisId s) = false /\
  error (fetchAnalysis analysisId s) = error s /\
  tabValue (fetchAnalysis analysisId s) = tabValue s.
Proof. done. Qed.

(** Which states put a result panel on screen. *)
Lemma shownResults_render (s : State) :
  shownResults (render s) =
    if loading s then None
    else if match error s with Some e => JS.truthy e | None => false end then None
    else match analysis s with
         | Some a => option_map (renderResults (tabValue s)) (results a)
         | None => None
         end.
Proof.
  unfold render. destruct (loading s); [done|].
  destruct (error s) as [e|]; [destruct (JS.truthy e); [done|]|];
    by destruct (analysis s).
Qed.

Lemma shownProgress_render (s : State) (p : Z) (st : string) :
  shownProgress (render s) = Some (p, st) ->
  exists a, analysis s = Some a /\ progress a = p /\ status a = st.
Proof.
  unfold render. destruct (loading s); [done|].
  destruct (error s) as [e|]; [destruct (JS.truthy e); [done|]|];
    (destruct (analysis s) as [a|]; [|done]);
    simpl; intros [= <- <-]; by exists a.
Qed.

(** Whatever the page goes through, the analysis it holds, if any, is a
    completed one at 100 percent. *)
Lemma pageTrace_progress (s : State) (evs : list PageEvent) :
  (forall a, analysis s = Some a -> progress a = 100 /\ status a = "completed") ->
  Forall (fun s' => forall a, analysis s' = Some a ->
                      progress a = 100 /\ status a = "completed")
         (pageTrace s evs).
Proof.
  revert s. induction evs as [|ev evs IH]; intros s Hs; simpl.
  - by constructor.
  - constructor; [done|]. apply IH. destruct ev as [i|t]; simpl; [|done].
    by intros a [= <-].
Qed.

End AnalysisFacts.

(** C2, counterexample: the edge from node 2 to node 3 in the result
    fetchAnalysis stores has type "uses", which is none of imports, calls,
    inherits, so the edges of an analysis result are not all well-formed
    over the declared types. *)
Lemma C2_uses_edge_is_not_a_declared_type :
  ~ Forall (Props.wellFormedEdge Props.declaredEdgeTypes)
           (Props.resultEdges (Analysis.fetchAnalysis 1 Analysis.initial)).
Proof.
  intros Hall.
  pose proof (Forall_lookup_1 _ _ 2%nat _ Hall eq_refl) as [Htype _].
  simpl in Htype. unfold Props.declaredEdgeTypes in Htype.
  rewrite !elem_of_cons, elem_of_nil in Htype.
  destruct Htype as [Ht | [Ht | [Ht | []]]]; discriminate Ht.
Qed.

(** C2, amended: every edge of the analysis result fetchAnalysis stores,
    for any analysis id and from any page state, has a type among imports,
    calls, inherits and uses, a weight in [0,1], and a source node that
    differs from its target node. *)
Theorem C2_result_edges_well_formed_with_uses (analysisId : Z) (s : Analysis.State) :
  Forall (Props.wellFormedEdge (Props.declaredEdgeTypes ++ ["uses"]))
         (Props.resultEdges (Analysis.fetchAnalysis analysisId s)) /\
  length (Props.resultEdges (Analysis.fetchAnalysis analysisId s)) = 4%nat.
Proof.
  split; [|reflexivity].
  unfold Props.resultEdges. simpl.
  repeat constructor; simpl;
    try (by vm_compute);
    rewrite !elem_of_cons; auto 6.
Qed.

(** ** The Risk Scorer *)

Section RiskScorerFacts.

Import RiskScorer.
Local Open Scope Q_scope.

Lemma Qle_bool_false (x y : Q) : Qle_bool x y = false -> y < x.
Proof.
  intros Hb. apply Qnot_le_lt. intros Hle.
  apply Qle_bool_iff in Hle. congruence.
Qed.

Lemma clamp01_unit (q : Q) : 0 <= clamp01 q /\ clamp01 q <= 1.
Proof.
  unfold clamp01. destruct (Qle_bool q 0) eqn:H0; [split; by vm_compute|].
  destruct (Qle_bool 1 q) eqn:H1; [split; by vm_compute|].
  apply Qle_bool_false in H0, H1. split; lra.
Qed.

(** Inside the unit interval the risk value is the weighted sum itself. *)
Lemma clamp01_inside (q : Q) : 0 <= q -> q <= 1 -> clamp01 q == q.
Proof.
  intros H0 H1. unfold clamp01.
  destruct (Qle_bool q 0) eqn:Hq0; [apply Qle_bool_iff in Hq0; lra|].
  destruct (Qle_bool 1 q) eqn:Hq1; [apply Qle_bool_iff in Hq1; lra|].
  reflexivity.
Qed.

Lemma severityOf_matches (r : Q) : Props.severityMatches r (severityOf r).
Proof.
  unfold severityOf.
  destruct (Qle_bool 0.8 r) eqn:H8; [by apply Qle_bool_iff|].
  destruct (Qle_bool 0.6 r) eqn:H6;
    [split; [by apply Qle_bool_iff | by apply Qle_bool_false]|].
  destruct (Qle_bool 0.35 r) eqn:H3;
    [split; [by apply Qle_bool_iff | by apply Qle_bool_false]|].
  by apply Qle_bool_false.
Qed.

Lemma severityMatches_unique (r : Q) (sev : Analysis.Severity) :
  Props.severityMatches r sev -> sev = severityOf r.
Proof.
  pose proof (severityOf_matches r) as Hof.
  destruct sev, (severityOf r); simpl in *; try done; intros; exfalso; lra.
Qed.

(** Every node of a scored graph carries a risk score in the unit
    interval and the severity label its thresholds fix. *)
Lemma scoreRisk_nodes {Id : Type} `{EqDecision Id} (w : Weights) (g : Graph Id) :
  Forall (fun n => exists r sev,
            gn_risk n = Some r /\ nodeSeverity n = Some sev /\
            0 <= r /\ r <= 1 /\ Props.severityMatches r sev /\
            forall sev', Props.severityMatches r sev' -> sev' = sev)
         (g_nodes (scoreRisk w g)).
Proof.
  unfold scoreRisk. cbn [g_nodes]. apply Forall_fmap, Forall_forall.
  intros n _. exists (riskValue w g n), (severityOf (riskValue w g n)).
  destruct (clamp01_unit (weightedSum w g n)) as [H0 H1].
  repeat split; [done | done | apply severityOf_matches |].
  apply severityMatches_unique.
Qed.

End RiskScorerFacts.

(** ** The Pipeline Orchestrator: invariant and progress *)

Section OrchestratorFacts.

Import Orchestrator.
Context `{E : Engine}.

Local Open Scope nat_scope.

(** Reduce the projections of a job record that is written out. *)
Ltac job_simpl :=
  cbn [status enumerated files slots completedCount graph buildDiagnostics
       fatal].

Lemma filled_insert {A} (l : list (option A)) (i : nat) (x : A) :
  l !! i = Some None ->
  length (filter (fun o : option A => is_Some o) (<[i := Some x]> l))
    = S (length (filter (fun o : option A => is_Some o) l)).
Proof.
  revert i. induction l as [|o l IH]; intros [|i] Hi; try done; simpl in *.
  - injection Hi as ->. rewrite filter_cons_False; [done|]. by intros [? ?].
  - rewrite !filter_cons. destruct (decide (is_Some o)); simpl; by rewrite IH.
Qed.

Lemma filledCount_le (j : Job) : filledCount j <= length (slots j).
Proof. apply length_filter. Qed.

Lemma consistent_fresh : consistent fresh.
Proof. by repeat split. Qed.

Lemma step_terminal (j : Job) (ev : Event) :
  terminal (status j) = true -> step j ev = j.
Proof. intros Ht. unfold step. by rewrite Ht. Qed.

Lemma step_consistent (j : Job) (ev : Event) :
  consistent j -> consistent (step j ev).
Proof.
  intros Hj. pose proof Hj as ((Hen & Hlen) & Hcnt & Hst). unfold step.
  destruct (terminal (status j)) eqn:Hterm; [done|].
  unfold enumeratedOk in Hen.
  destruct ev as [fs|i o| |e|], (status j) eqn:Hs;
    try discriminate Hterm; try done; simpl in Hst;
    try (unfold consistent, enumeratedOk, filledCount, withStatus, failWith;
         job_simpl; by intuition eauto).
  - (* Accept, Pending *)
    unfold consistent, enumeratedOk, filledCount; job_simpl.
    rewrite length_replicate. repeat split; try done.
    clear. induction (length fs) as [|n IH]; [done|]. simpl.
    rewrite filter_cons_False; [done|]. by intros [? ?].
  - (* FileDone, Parsing *)
    destruct (slots j !! i) as [[o'|]|] eqn:Hi; try exact Hj.
    unfold consistent, enumeratedOk, filledCount; job_simpl.
    rewrite length_insert, filled_insert by done.
    unfold filledCount in Hcnt. by rewrite Hcnt.
  - (* Advance, Parsing *)
    destruct (decide (completedCount j = length (slots j))) as [Hall|];
      [|exact Hj].
    unfold consistent, enumeratedOk, filledCount, withStatus; job_simpl.
    intuition eauto.
  - (* Advance, GraphBuilding *)
    destruct (buildGraph (records j)) as [[g ds]|e];
      unfold consistent, enumeratedOk, filledCount, failWith; job_simpl;
      intuition eauto.
  - (* Advance, MetricComputing *)
    destruct Hst as (Hall & [g Hg] & Hf). rewrite Hg.
    destruct (computeMetrics g) as [g'|e];
      unfold consistent, enumeratedOk, filledCount, failWith, withGraph;
      job_simpl; intuition eauto.
  - (* Advance, Scoring *)
    destruct Hst as (Hall & [g Hg] & Hf). rewrite Hg.
    unfold consistent, enumeratedOk, filledCount, withGraph; job_simpl.
    intuition eauto.
Qed.

Lemma run_consistent (j : Job) (evs : list Event) :
  consistent j -> consistent (run j evs).
Proof.
  revert j. induction evs as [|ev evs IH]; intros j Hj; [done|].
  simpl. apply IH. by apply step_consistent.
Qed.

Lemma trace_consistent (j : Job) (evs : list Event) :
  consistent j -> Forall consistent (trace j evs).
Proof.
  revert j. induction evs as [|ev evs IH]; intros j Hj; simpl.
  - by constructor.
  - constructor; [done|]. apply IH. by apply step_consistent.
Qed.

Lemma run_terminal (j : Job) (evs : list Event) :
  terminal (status j) = true -> run j evs = j.
Proof.
  intros Ht. induction evs as [|ev evs IH]; [done|].
  simpl. by rewrite step_terminal.
Qed.

Lemma percentage_le_100 (j : Job) : consistent j -> percentage j <= 100.
Proof.
  intros (_ & Hcnt & _). pose proof (filledCount_le j) as Hle.
  unfold percentage. destruct (enumerated j); [|lia].
  destruct (length (slots j)) as [|n] eqn:Hn; [lia|].
  apply Nat.Div0.div_le_upper_bound. lia.
Qed.

Lemma percentage_100_iff (j : Job) :
  consistent j -> enumerated j = true ->
  percentage j = 100 <-> completedCount j = length (slots j).
Proof.
  intros (_ & Hcnt & _) Hen. pose proof (filledCount_le j) as Hle.
  unfold percentage. rewrite Hen.
  destruct (slots j) as [|o sl] eqn:Hsl.
  { simpl in *. split; [lia | done]. }
  simpl length in *. split.
  - intros Hp. destruct (decide (completedCount j = S (length sl))); [done|].
    assert ((100 * completedCount j) `div` S (length sl) < 100); [|lia].
    apply Nat.Div0.div_lt_upper_bound. lia.
  - intros ->. by apply Nat.div_mul.
Qed.

Lemma step_percentage_mono (j : Job) (ev : Event) :
  consistent j -> percentage j <= percentage (step j ev).
Proof.
  intros ((Hen & Hlen) & Hcnt & Hst). unfold step.
  destruct (terminal (status j)) eqn:Hterm; [done|].
  unfold enumeratedOk in Hen.
  destruct ev as [fs|i o| |e|], (status j) eqn:Hs;
    try discriminate Hterm; try done; simpl in Hst.
  - unfold percentage at 1. rewrite Hen. lia.
  - destruct (slots j !! i) as [[o'|]|] eqn:Hi; try done.
    unfold percentage; job_simpl. rewrite length_insert, Hen.
    destruct (length (slots j)); [done|]. apply Nat.Div0.div_le_mono. lia.
  - by destruct (decide (completedCount j = length (slots j))).
  - by destruct (buildGraph (records j)) as [[g ds]|e].
  - destruct (graph j) as [g|]; [|done]. by destruct (computeMetrics g).
  - by destruct (graph j).
Qed.

Lemma trace_percentage_from (j : Job) (evs : list Event) :
  consistent j ->
  Forall (fun j' => percentage j <= percentage j') (trace j evs).
Proof.
  revert j. induction evs as [|ev evs IH]; intros j Hj; simpl.
  - by repeat constructor.
  - constructor; [done|].
    eapply Forall_impl; [apply IH; by apply step_consistent|].
    intros j' Hj'. simpl in Hj'.
    pose proof (step_percentage_mono j ev Hj). lia.
Qed.

Lemma trace_monotone (j : Job) (evs : list Event) (i k : nat) (ji jk : Job) :
  consistent j -> i <= k ->
  trace j evs !! i = Some ji -> trace j evs !! k = Some jk ->
  percentage ji <= percentage jk.
Proof.
  revert j i k. induction evs as [|ev evs IH]; intros j i k Hj Hik Hi Hk.
  - destruct i, k; simpl in *; by simplify_eq.
  - destruct i as [|i]; simpl in Hi.
    + injection Hi as <-.
      pose proof (trace_percentage_from j (ev :: evs) Hj) as Hall.
      by apply (Forall_lookup_1 _ _ _ _ Hall Hk).
    + destruct k as [|k]; [lia|]. simpl in Hk.
      apply (IH (step j ev) i k); [by apply step_consistent | lia | done | done].
Qed.

Lemma completed_percentage (j : Job) :
  consistent j -> status j = Completed -> percentage j = 100.
Proof.
  intros Hj Hs. pose proof Hj as ((Hen & _) & _ & Hst).
  unfold enumeratedOk in Hen. rewrite Hs in Hst, Hen.
  apply percentage_100_iff; [done | done | tauto].
Qed.

Lemma trace_reaches_100_once (j : Job) (evs : list Event) :
  consistent j -> percentage j < 100 ->
  status (run j evs) = Completed ->
  exists pre post,
    trace j evs = pre ++ post /\ post <> [] /\
    Forall (fun j' => percentage j' < 100 /\ status j' <> Completed) pre /\
    Forall (fun j' => percentage j' = 100) post.
Proof.
  revert j. induction evs as [|ev evs IH]; intros j Hj Hlt Hs.
  - simpl in Hs. pose proof (completed_percentage j Hj Hs). lia.
  - assert (status j <> Completed) as Hnc.
    { intros Hc. pose proof (completed_percentage j Hj Hc). lia. }
    pose proof (step_consistent j ev Hj) as Hj'.
    destruct (decide (percentage (step j ev) < 100)) as [Hlt'|Hge].
    + destruct (IH (step j ev) Hj' Hlt' Hs) as (pre & post & Ht & Hp & Hpre & Hpost).
      exists (j :: pre), post. simpl. rewrite Ht.
      split; [done|]. split; [done|]. split; [by constructor | done].
    + exists [j], (trace (step j ev) evs).
      split; [done|]. split; [by destruct evs|].
      split; [constructor; [done | constructor]|].
      * pose proof (trace_percentage_from _ evs Hj') as Hfrom.
        pose proof (trace_consistent _ evs Hj') as Hcons.
        apply Forall_forall. intros j' Hin.
        rewrite Forall_forall in Hfrom, Hcons.
        specialize (Hfrom j' Hin). simpl in Hfrom.
        pose proof (percentage_le_100 j' (Hcons j' Hin)). lia.
Qed.

(** A job is Completed only by leaving the Scoring stage: its graph is
    the one the risk scorer returned. *)
Lemma step_scored (j : Job) (ev : Event) :
  (status j = Completed -> exists g, graph j = Some (scoreRisk g)) ->
  status (step j ev) = Completed ->
  exists g, graph (step j ev) = Some (scoreRisk g).
Proof.
  intros Hj. unfold step.
  destruct (terminal (status j)) eqn:Hterm; [done|].
  destruct ev as [fs|i o| |e|], (status j) eqn:Hs;
    try discriminate Hterm; try done; job_simpl; try (intros; congruence).
  - destruct (slots j !! i) as [[o'|]|]; job_simpl; intros; congruence.
  - destruct (decide (completedCount j = length (slots j)));
      unfold withStatus; job_simpl; intros; congruence.
  - destruct (buildGraph (records j)) as [[g ds]|e];
      unfold failWith; job_simpl; intros; congruence.
  - destruct (graph j) as [g|]; [|intros; congruence].
    destruct (computeMetrics g) as [g'|e];
      unfold failWith, withGraph; job_simpl; intros; congruence.
  - destruct (graph j) as [g|]; [|intros; congruence].
    intros _. by exists g.
Qed.

Lemma run_scored (j : Job) (evs : list Event) :
  (status j = Completed -> exists g, graph j = Some (scoreRisk g)) ->
  status (run j evs) = Completed ->
  exists g, graph (run j evs) = Some (scoreRisk g).
Proof.
  revert j. induction evs as [|ev evs IH]; intros j Hj; [done|].
  simpl. apply IH. by apply step_scored.
Qed.

Lemma getResult_scored (evs : list Event) (g : Graph) :
  getResult (run fresh evs) = Some g -> exists g', g = scoreRisk g'.
Proof.
  unfold getResult. destruct (status (run fresh evs)) eqn:Hs; try done.
  intros Hg. destruct (run_scored fresh evs) as [g' Hg']; [done | done |].
  exists g'. congruence.
Qed.

End OrchestratorFacts.

(** C1: in the pipeline whose scoring stage is the formula-based Risk
    Scorer, under any configured weight set or the default one, every node
    of the result of a job that ended in Completed carries a risk value,
    that value lies in [0,1], and the severity label of the node is the one
    the thresholds fix for it: critical from 0.8, high from 0.6, medium
    from 0.35, low below; no other label fits the value. *)
Theorem C1_risk_in_unit_interval_severity_by_thresholds
    (S : ScoringEngine.Stages) (configured : option RiskScorer.Weights)
    (evs : list (@Orchestrator.Event (ScoringEngine.engine S configured)))
    (g : RiskScorer.Graph ScoringEngine.NodeId) :
  Orchestrator.getResult (Orchestrator.run Orchestrator.fresh evs) = Some g ->
  Forall (fun n => exists r sev,
            RiskScorer.gn_risk n = Some r /\
            RiskScorer.nodeSeverity n = Some sev /\
            (0 <= r)%Q /\ (r <= 1)%Q /\ Props.severityMatches r sev /\
            forall sev', Props.severityMatches r sev' -> sev' = sev)
         (RiskScorer.g_nodes g).
Proof.
  intros Hg.
  destruct (getResult_scored (E := ScoringEngine.engine S configured) evs g Hg)
    as [g' ->].
  apply scoreRisk_nodes.
Qed.

(** C1 on the completed run over [a], which imports [b], and [b], with the
    default weights: the result has the two nodes, with risk 0.5 (medium)
    and 0.3 (low). *)
Lemma C1_risk_witness :
  exists g,
    Orchestrator.getResult (Orchestrator.run Orchestrator.fresh Examples.scoredRun)
      = Some g /\
    length (RiskScorer.g_nodes g) = 2%nat /\
    Forall (fun n => exists r sev,
              RiskScorer.gn_risk n = Some r /\
              RiskScorer.nodeSeverity n = Some sev /\
              (0 <= r)%Q /\ (r <= 1)%Q /\ Props.severityMatches r sev /\
              forall sev', Props.severityMatches r sev' -> sev' = sev)
           (RiskScorer.g_nodes g).
Proof.
  eexists. split; [reflexivity|]. split; [reflexivity|].
  apply (C1_risk_in_unit_interval_severity_by_thresholds
           Examples.toyStages None Examples.scoredRun).
  reflexivity.
Defined.

(** C5: a job that ends in Completed carries a diagnostics list (empty or
    not) alongside its result and no fatal error; a job that ends in Failed
    carries no result and exactly one fatal error description.  On the
    Analysis page, a failed load shows its one error message and no result
    content. *)
Theorem C5_completed_carries_diagnostics_failed_one_error
    `{E : Orchestrator.Engine} (evs : list Orchestrator.Event) :
  let j := Orchestrator.run Orchestrator.fresh evs in
  (Orchestrator.status j = Orchestrator.Completed ->
   exists g ds,
     Orchestrator.getResult j = Some g /\
     Orchestrator.getStatus j
       = (Orchestrator.Completed, Orchestrator.percentage j, ds) /\
     Orchestrator.fatal j = None) /\
  (Orchestrator.status j = Orchestrator.Failed ->
   Orchestrator.getResult j = None /\ Orchestrator.graph j = None /\
   exists e, Orchestrator.fatal j = Some e) /\
  (forall s e,
     Analysis.loading s = false -> Analysis.error s = Some e -> e <> "" ->
     Analysis.render s = Analysis.ErrorAlert e /\
     Analysis.shownResults (Analysis.render s) = None).
Proof.
  intros j.
  pose proof (run_consistent Orchestrator.fresh evs consistent_fresh) as (_ & _ & Hst).
  fold j in Hst. split; [|split].
  - intros Hs. rewrite Hs in Hst. destruct Hst as (_ & [g Hg] & Hf).
    exists g, (Orchestrator.diagnostics j). unfold Orchestrator.getResult, Orchestrator.getStatus.
    by rewrite Hs.
  - intros Hs. rewrite Hs in Hst. destruct Hst as (Hg & [e He]).
    unfold Orchestrator.getResult. rewrite Hs. eauto.
  - intros s e Hl He Hne. unfold Analysis.render. rewrite Hl, He.
    apply truthy_spec in Hne. by rewrite Hne.
Qed.

(** C5 on a completed run, on a run that fails in graph building, and on
    the page after a failed load. *)
Lemma C5_completed_failed_witness :
  (exists g ds,
     Orchestrator.getResult (Orchestrator.run Orchestrator.fresh Examples.completedRun) = Some g /\
     Orchestrator.getStatus (Orchestrator.run Orchestrator.fresh Examples.completedRun)
       = (Orchestrator.Completed, 100%nat, ds) /\
     Orchestrator.fatal (Orchestrator.run Orchestrator.fresh Examples.completedRun) = None) /\
  (Orchestrator.getResult (Orchestrator.run Orchestrator.fresh Examples.failedRun) = None /\
   Orchestrator.graph (Orchestrator.run Orchestrator.fresh Examples.failedRun) = None /\
   exists e, Orchestrator.fatal (Orchestrator.run Orchestrator.fresh Examples.failedRun) = Some e) /\
  Analysis.render Examples.failedPage = Analysis.ErrorAlert "Failed to load analysis data" /\
  Analysis.shownResults (Analysis.render Examples.failedPage) = None.
Proof.
  destruct (C5_completed_carries_diagnostics_failed_one_error Examples.completedRun)
    as (Hcompleted & _ & Hpage).
  destruct (C5_completed_carries_diagnostics_failed_one_error Examples.failedRun)
    as (_ & Hfailed & _).
  split; [apply Hcompleted; reflexivity|].
  split; [apply Hfailed; reflexivity|].
  apply Hpage; [reflexivity | reflexivity | discriminate].
Defined.

(** ** The Pipeline Orchestrator: determinism *)

Section DeterminismFacts.

Import Orchestrator.
Context `{E : Engine}.

Local Open Scope nat_scope.

Lemma run_app (j : Job) (evs1 evs2 : list Event) :
  run j (evs1 ++ evs2) = run (run j evs1) evs2.
Proof. apply foldl_app. Qed.

Lemma worker_step (fs : list SourceUnit) (j : Job) (i : nat) (u : SourceUnit) :
  parsingOver fs j -> fs !! i = Some u ->
  parsingOver fs (step j (FileDone i (parse u))) /\
  filledAt (step j (FileDone i (parse u))) i /\
  (forall k, filledAt j k -> filledAt (step j (FileDone i (parse u))) k).
Proof.
  intros Hj Hu. pose proof Hj as (Hs & Hen & Hf & Hg & Hd & He & Hlen & Hsl).
  unfold step. rewrite Hs. simpl.
  destruct (slots j !! i) as [[o|]|] eqn:Hi.
  - split; [done|]. split; [by exists o | done].
  - split; [|split].
    + unfold parsingOver.
      cbn [status enumerated files slots graph buildDiagnostics fatal].
      rewrite length_insert. repeat split; try done.
      intros k o Hk. destruct (decide (k = i)) as [->|Hne].
      * rewrite list_lookup_insert_eq in Hk by (by eapply lookup_lt_Some).
        exists u. by simplify_eq.
      * rewrite list_lookup_insert_ne in Hk by done. by apply Hsl.
    + exists (parse u). cbn [slots].
      apply list_lookup_insert_eq. by eapply lookup_lt_Some.
    + intros k [o Hk]. exists o. cbn [slots].
      rewrite list_lookup_insert_ne; [done|]. intros ->. congruence.
  - apply lookup_ge_None in Hi. apply lookup_lt_Some in Hu. lia.
Qed.

Lemma workers_run (fs : list SourceUnit) (schedule : list nat) (j : Job) :
  parsingOver fs j ->
  parsingOver fs (run j (workerEvents fs schedule)) /\
  (forall k, k < length fs -> k ∈ schedule \/ filledAt j k ->
             filledAt (run j (workerEvents fs schedule)) k).
Proof.
  revert j. induction schedule as [|i sch IH]; intros j Hj.
  - split; [done|]. intros k _ [Hk|Hk]; [by apply elem_of_nil in Hk | done].
  - unfold workerEvents. cbn [omap list_omap].
    destruct (fs !! i) as [u|] eqn:Hu; cbn [fmap option_fmap option_map run foldl].
    + destruct (worker_step fs j i u Hj Hu) as (Hj1 & Hi1 & Hkeep).
      destruct (IH _ Hj1) as [Hp Hfill]. split; [done|].
      intros k Hk [Hin|Hfilled]; apply Hfill; try done.
      * apply elem_of_cons in Hin as [->|Hin]; [by right | by left].
      * right. by apply Hkeep.
    + destruct (IH _ Hj) as [Hp Hfill]. split; [done|].
      intros k Hk [Hin|Hfilled]; apply Hfill; try done; [|by right].
      apply elem_of_cons in Hin as [->|Hin]; [|by left].
      apply lookup_ge_None in Hu. lia.
Qed.

Lemma filled_all {A B} (f : A -> B) (l : list A) :
  length (filter (fun o : option B => is_Some o) ((fun a => Some (f a)) <$> l))
    = length l.
Proof.
  induction l as [|a l IH]; [done|]. simpl. f_equal. exact IH.
Qed.

Lemma all_filled_parsedJob (fs : list SourceUnit) (j : Job) :
  parsingOver fs j -> consistent j ->
  (forall k, k < length fs -> filledAt j k) ->
  j = parsedJob fs.
Proof.
  intros (Hs & Hen & Hf & Hg & Hd & He & Hlen & Hsl) (_ & Hcnt & _) Hall.
  assert (slots j = (fun u => Some (parse u)) <$> fs) as Hslots.
  { apply list_eq. intros k. rewrite list_lookup_fmap.
    destruct (fs !! k) as [u|] eqn:Hu; simpl.
    - destruct (Hall k) as [o Ho]; [by eapply lookup_lt_Some|].
      destruct (Hsl k o Ho) as (u' & Hu' & ->).
      rewrite Hu in Hu'. injection Hu' as <-. exact Ho.
    - apply lookup_ge_None. apply lookup_ge_None in Hu. lia. }
  unfold filledCount in Hcnt. rewrite Hslots, filled_all in Hcnt.
  destruct j. simpl in *. unfold parsedJob. by subst.
Qed.

Lemma accept_parsingOver (fs : list SourceUnit) :
  parsingOver fs (step fresh (Accept fs)).
Proof.
  unfold parsingOver. simpl. rewrite length_replicate. repeat split.
  intros i o Hi. apply lookup_replicate in Hi as [? _]. done.
Qed.

(** Whatever order the workers finish in, the Parsing stage ends in the
    same job record. *)
Lemma pipeline_schedule_independent (fs : list SourceUnit) (schedule : list nat) :
  covers schedule fs ->
  pipeline fs schedule = run (parsedJob fs) [Advance; Advance; Advance; Advance].
Proof.
  intros Hcov. unfold pipeline.
  change (run fresh (Accept fs :: ?l)) with (run (step fresh (Accept fs)) l).
  rewrite run_app. f_equal.
  destruct (workers_run fs schedule _ (accept_parsingOver fs)) as [Hp Hfill].
  apply all_filled_parsedJob; [done| |].
  - apply run_consistent, step_consistent, consistent_fresh.
  - intros k Hk. apply Hfill; [done|]. left. by apply Hcov.
Qed.

End DeterminismFacts.

Section GraphBuilderFacts.

Import Orchestrator.
Context `{E : Engine}.

Local Open Scope nat_scope.

Global Instance byId_transitive : Transitive byId.
Proof. intros a b c Hab Hbc. unfold byId in *. by etransitivity. Qed.

Global Instance byId_total : Total byId.
Proof. intros a b. unfold byId. apply total, _. Qed.

Lemma NoDup_fst_inj {A B} (l : list (A * B)) (x y : A * B) :
  NoDup l.*1 -> x ∈ l -> y ∈ l -> x.1 = y.1 -> x = y.
Proof.
  induction l as [|a l IH]; intros Hnd Hx Hy Hxy; [by apply elem_of_nil in Hx|].
  rewrite fmap_cons in Hnd. apply NoDup_cons in Hnd as [Ha Hnd].
  apply elem_of_cons in Hx as [->|Hx]; apply elem_of_cons in Hy as [->|Hy].
  - done.
  - exfalso. apply Ha. rewrite Hxy. by apply list_elem_of_fmap_2.
  - exfalso. apply Ha. rewrite <- Hxy. by apply list_elem_of_fmap_2.
  - by apply IH.
Qed.

(** Sorting by node id settles the order of the builder's input. *)
Lemma sorted_records_unique (rs1 rs2 : list (NodeId * SymbolRecord)) :
  NoDup rs1.*1 -> rs1 ≡ₚ rs2 -> merge_sort byId rs1 = merge_sort byId rs2.
Proof.
  intros Hnd Hperm. apply (StronglySorted_unique_strong byId).
  - intros x1 x2 Hx1 Hx2 H12 H21.
    rewrite merge_sort_Permutation in Hx1, Hx2. rewrite <- Hperm in Hx2.
    apply (NoDup_fst_inj rs1); [done..|].
    unfold byId in *. by apply (anti_symm id_le).
  - apply StronglySorted_merge_sort; apply _.
  - apply StronglySorted_merge_sort; apply _.
  - by rewrite !merge_sort_Permutation.
Qed.

Lemma recordsOf_ids (fs : list SourceUnit) :
  (recordsOf fs).*1 `sublist_of` (nodeId <$> fs).
Proof.
  induction fs as [|u fs IH]; [constructor|].
  unfold recordsOf. cbn [omap list_omap].
  destruct (parse u) as [r ws|d]; rewrite !fmap_cons.
  - by apply sublist_skip.
  - by apply sublist_cons.
Qed.

Lemma buildGraph_permutation (fs1 fs2 : list SourceUnit) :
  fs1 ≡ₚ fs2 -> NoDup (nodeId <$> fs1) ->
  buildGraph (recordsOf fs1) = buildGraph (recordsOf fs2).
Proof.
  intros Hperm Hnd. unfold buildGraph. f_equal.
  apply sorted_records_unique.
  - eapply sublist_NoDup; [exact Hnd | apply recordsOf_ids].
  - unfold recordsOf. by rewrite Hperm.
Qed.

Lemma records_parsed (j : Job) :
  slots j = (fun u => Some (parse u)) <$> files j ->
  records j = recordsOf (files j).
Proof.
  intros Hsl. unfold records, recordsOf. rewrite Hsl. clear Hsl.
  induction (files j) as [|u fs IH]; [done|].
  rewrite fmap_cons. cbn [zip zip_with omap list_omap fst snd].
  rewrite IH. by destruct (parse u).
Qed.

Lemma step_parsedJob (fs : list SourceUnit) :
  step (parsedJob fs) Advance = withStatus GraphBuilding (parsedJob fs).
Proof.
  unfold step. cbn [parsedJob status terminal slots completedCount].
  rewrite length_fmap. by rewrite decide_True.
Qed.

Lemma step_graphBuilding (fs : list SourceUnit) :
  step (withStatus GraphBuilding (parsedJob fs)) Advance =
    match buildGraph (recordsOf fs) with
    | inl (g, ds) =>
        {| status := MetricComputing; enumerated := true; files := fs;
           slots := (fun u => Some (parse u)) <$> fs;
           completedCount := length fs; graph := Some g;
           buildDiagnostics := ds; fatal := None |}
    | inr e => failWith e (withStatus GraphBuilding (parsedJob fs))
    end.
Proof.
  unfold step. cbn [withStatus status terminal].
  rewrite records_parsed by done.
  cbn [withStatus parsedJob enumerated files slots completedCount fatal].
  destruct (buildGraph (recordsOf fs)) as [[g ds]|e]; reflexivity.
Qed.

(** The stages after parsing are a function of the builder's input. *)
Lemma stages_after_parsing (fs : list SourceUnit) :
  let j := run (parsedJob fs) [Advance; Advance; Advance; Advance] in
  (status j, graph j, buildDiagnostics j, fatal j) = stagesResult (recordsOf fs).
Proof.
  unfold run. cbn [foldl]. rewrite step_parsedJob, step_graphBuilding.
  unfold stagesResult.
  destruct (buildGraph (recordsOf fs)) as [[g ds]|e]; [|done].
  unfold step. simpl. by destruct (computeMetrics g) as [g'|e].
Qed.

End GraphBuilderFacts.

Section PipelineDeterminism.

Import Orchestrator.
Context `{E : Engine}.

Lemma stagesResult_permutation (fs1 fs2 : list SourceUnit) :
  fs1 ≡ₚ fs2 -> NoDup (nodeId <$> fs1) ->
  stagesResult (recordsOf fs1) = stagesResult (recordsOf fs2).
Proof.
  intros Hperm Hnd. unfold stagesResult.
  by rewrite (buildGraph_permutation fs1 fs2).
Qed.

Lemma stagesResult_terminal (rs : list (NodeId * SymbolRecord)) :
  (stagesResult rs).1.1.1 = Completed \/ (stagesResult rs).1.1.1 = Failed.
Proof.
  unfold stagesResult.
  destruct (buildGraph rs) as [[g ds]|e]; [|by right].
  destruct (computeMetrics g); [by left | by right].
Qed.

Lemma pipeline_result (fs : list SourceUnit) (schedule : list nat) :
  covers schedule fs ->
  (status (pipeline fs schedule), graph (pipeline fs schedule),
   buildDiagnostics (pipeline fs schedule), fatal (pipeline fs schedule))
    = stagesResult (recordsOf fs).
Proof.
  intros Hcov. rewrite (pipeline_schedule_independent fs schedule Hcov).
  apply stages_after_parsing.
Qed.

End PipelineDeterminism.

(** C6: for one set of source units with distinct paths, enumerated in any
    order and parsed by workers finishing in any order (which is all a pool
    size decides), the pipeline ends, in Completed or Failed, with the same
    status, the same graph and result, the same builder diagnostics and the
    same fatal error; for one enumeration the whole job record is the same.
    Fetching the analysis for one id twice, from whatever page states,
    yields identical data. *)
Theorem C6_same_units_same_graph
    `{E : Orchestrator.Engine}
    (fs1 fs2 : list Orchestrator.SourceUnit) (schedule1 schedule2 : list nat)
    (analysisId : Z) (s1 s2 : Analysis.State) :
  fs1 ≡ₚ fs2 ->
  NoDup (Orchestrator.nodeId <$> fs1) ->
  Orchestrator.covers schedule1 fs1 ->
  Orchestrator.covers schedule2 fs2 ->
  let j1 := Orchestrator.pipeline fs1 schedule1 in
  let j2 := Orchestrator.pipeline fs2 schedule2 in
  (Orchestrator.status j1 = Orchestrator.Completed \/
   Orchestrator.status j1 = Orchestrator.Failed) /\
  Orchestrator.status j1 = Orchestrator.status j2 /\
  Orchestrator.graph j1 = Orchestrator.graph j2 /\
  Orchestrator.getResult j1 = Orchestrator.getResult j2 /\
  Orchestrator.buildDiagnostics j1 = Orchestrator.buildDiagnostics j2 /\
  Orchestrator.fatal j1 = Orchestrator.fatal j2 /\
  (fs1 = fs2 -> j1 = j2) /\
  Analysis.analysis (Analysis.fetchAnalysis analysisId s1)
    = Analysis.analysis (Analysis.fetchAnalysis analysisId s2).
Proof.
  intros Hperm Hnd Hc1 Hc2 j1 j2.
  pose proof (pipeline_result fs1 schedule1 Hc1) as H1.
  pose proof (pipeline_result fs2 schedule2 Hc2) as H2.
  pose proof (stagesResult_terminal (Orchestrator.recordsOf fs1)) as Hterm.
  rewrite <- (stagesResult_permutation fs1 fs2 Hperm Hnd) in H2.
  rewrite <- H1 in H2, Hterm. fold j1 j2 in H2, Hterm. simpl in Hterm.
  injection H2 as Hst Hg Hd Hf.
  split; [exact Hterm|]. split; [done|]. split; [done|].
  split; [unfold Orchestrator.getResult; by rewrite Hst, Hg|].
  split; [done|]. split; [done|]. split; [|reflexivity].
  intros ->. unfold j1, j2.
  by rewrite !pipeline_schedule_independent.
Qed.

(** C6 on one snapshot of three files enumerated in two orders and parsed
    under two schedules: both runs give the graph with the one edge from
    node 1 to node 2. *)
Lemma C6_same_units_witness :
  Orchestrator.getResult (Orchestrator.pipeline (E := Examples.toyEngine)
                            Examples.unitsOne Examples.scheduleOne)
    = Some [(1%nat, 2%nat)] /\
  Orchestrator.getResult (Orchestrator.pipeline (E := Examples.toyEngine)
                            Examples.unitsTwo Examples.scheduleTwo)
    = Some [(1%nat, 2%nat)] /\
  Analysis.analysis (Analysis.fetchAnalysis 1 Analysis.initial)
    = Analysis.analysis (Analysis.fetchAnalysis 1 Examples.failedPage).
Proof.
  assert (Examples.unitsOne ≡ₚ Examples.unitsTwo) as Hperm
    by (apply perm_skip, perm_swap).
  assert (NoDup (Orchestrator.nodeId (Engine := Examples.toyEngine) <$> Examples.unitsOne))
    as Hnd.
  { change (NoDup [1; 3; 2]%nat).
    repeat (apply NoDup_cons; split; [rewrite ?elem_of_cons, elem_of_nil; lia|]).
    apply NoDup_nil_2. }
  assert (Orchestrator.covers (E := Examples.toyEngine)
            Examples.scheduleOne Examples.unitsOne) as Hc1.
  { intros i Hi. simpl in Hi. unfold Examples.scheduleOne.
    destruct i as [|[|[|i]]]; [| | |lia]; rewrite !elem_of_cons; auto. }
  assert (Orchestrator.covers (E := Examples.toyEngine)
            Examples.scheduleTwo Examples.unitsTwo) as Hc2.
  { intros i Hi. simpl in Hi. unfold Examples.scheduleTwo.
    destruct i as [|[|[|i]]]; [| | |lia]; rewrite !elem_of_cons; auto. }
  destruct (C6_same_units_same_graph (E := Examples.toyEngine)
              Examples.unitsOne Examples.unitsTwo
              Examples.scheduleOne Examples.scheduleTwo
              1 Analysis.initial Examples.failedPage Hperm Hnd Hc1 Hc2)
    as (_ & _ & _ & Hres & _ & _ & _ & Hfetch).
  split; [reflexivity|]. split; [|exact Hfetch].
  rewrite <- Hres. reflexivity.
Defined.

(** ** Further properties of the front end *)

(** *** Numbers written and read back *)

Section NumberFacts.

Import Notions.

Lemma digitsValue_stop (acc : Z) (rest : string) :
  stopsDecimal rest = true -> JS.digitsValue 10 (Some acc) rest = Some acc.
Proof.
  destruct rest as [|c rest]; [done|]. simpl.
  destruct (JS.digitValue c) as [v|]; [|done].
  intros Hv. apply negb_true_iff in Hv. by rewrite Hv.
Qed.

Lemma digitsValue_uint (d : Decimal.uint) (acc : Z) (rest : string) :
  stopsDecimal rest = true ->
  JS.digitsValue 10 (Some acc) (NilEmpty.string_of_uint d +:+ rest)
    = Some (uintValue acc d).
Proof.
  intros Hrest. revert acc.
  induction d as [|d IH|d IH|d IH|d IH|d IH|d IH|d IH|d IH|d IH|d IH];
    intros acc; simpl; [by apply digitsValue_stop | apply IH ..].
Qed.

Lemma digitsValue_uint_start (d : Decimal.uint) (rest : string) :
  d <> Decimal.Nil -> stopsDecimal rest = true ->
  JS.digitsValue 10 None (NilEmpty.string_of_uint d +:+ rest)
    = Some (uintValue 0 d).
Proof.
  intros Hd Hrest. destruct d; [done|..]; simpl; by apply digitsValue_uint.
Qed.

Lemma uintValue_pos (d : Decimal.uint) (acc : positive) :
  uintValue (Z.pos acc) d = Z.pos (Pos.of_uint_acc d acc).
Proof.
  revert acc. induction d; intros acc; simpl; [done|..];
    rewrite <- IHd; f_equal; lia.
Qed.

Lemma uintValue_0 (d : Decimal.uint) : uintValue 0 d = Z.of_N (Pos.of_uint d).
Proof.
  induction d; simpl; try done; by rewrite <- uintValue_pos.
Qed.

Lemma to_uint_nonnil (n : N) : N.to_uint n <> Decimal.Nil.
Proof.
  destruct n as [|p]; [done|]. apply DecimalPos.Unsigned.to_uint_nonnil.
Qed.

Lemma decimal_value (n : N) : uintValue 0 (N.to_uint n) = Z.of_N n.
Proof.
  rewrite uintValue_0. f_equal. apply DecimalN.Unsigned.of_to.
Qed.

(** Reading the decimal digits of [n], whatever follows them. *)
Lemma digitsValue_decimal (n : N) (rest : string) :
  stopsDecimal rest = true ->
  JS.digitsValue 10 None (JS.decimal n +:+ rest) = Some (Z.of_N n).
Proof.
  intros Hrest. unfold JS.decimal.
  rewrite digitsValue_uint_start by (done || apply to_uint_nonnil).
  by rewrite decimal_value.
Qed.

End NumberFacts.

Section ParseIntFacts.

Import Notions.

Lemma option_map_mul_1 (o : option Z) : option_map (Z.mul 1) o = o.
Proof. destruct o as [z|]; [|done]. simpl. by destruct z. Qed.

Lemma option_map_mul_m1 (o : option Z) : option_map (Z.mul (-1)) o = option_map Z.opp o.
Proof. destruct o as [z|]; [|done]. simpl. by destruct z. Qed.

Lemma ascii_eqb_code (c d : ascii) :
  N_of_ascii c <> N_of_ascii d -> Ascii.eqb c d = false.
Proof. intros Hne. apply Ascii.eqb_neq. by intros ->. Qed.

(** A decimal digit is neither white space nor a sign. *)
Lemma digit_char (c : ascii) :
  ((48 <=? N_of_ascii c) && (N_of_ascii c <=? 57))%N = true ->
  JS.isWhiteSpace c = false /\ Ascii.eqb c "-" = false /\
  Ascii.eqb c "+" = false /\ Ascii.eqb "-" c = false.
Proof.
  intros Hc. apply andb_true_iff in Hc as [Hlo Hhi].
  apply N.leb_le in Hlo, Hhi. split; [|split; [|split]].
  - unfold JS.isWhiteSpace. cbv zeta.
    rewrite !orb_false_iff, !N.eqb_neq. repeat split; lia.
  - apply ascii_eqb_code. simpl. lia.
  - apply ascii_eqb_code. simpl. lia.
  - apply ascii_eqb_code. simpl. lia.
Qed.

(** On a string that starts with a digit, [parseInt] in radix 10 reads the
    digits. *)
Lemma parseInt_10_digits (s : string) :
  headDigit s = true -> JS.parseInt s 10 = JS.digitsValue 10 None s.
Proof.
  destruct s as [|c tl]; [done|]. intros Hc.
  destruct (digit_char c Hc) as (Hw & Hm & Hp & Hm').
  assert (JS.startsWith (String c tl) "-" = false) as Hs
    by (cbn [JS.startsWith]; by rewrite Hm').
  unfold JS.parseInt. cbn [JS.trimStart]. rewrite Hw, Hs, Hm, Hp.
  cbn [orb Z.eqb Z.ltb Z.compare Pos.compare Pos.compare_cont negb andb fst snd].
  apply option_map_mul_1.
Qed.

(** With no radix given the same holds unless a hexadecimal prefix is
    there. *)
Lemma parseInt_0_digits (s : string) :
  headDigit s = true -> noHexPrefix s = true ->
  JS.parseInt s 0 = JS.digitsValue 10 None s.
Proof.
  destruct s as [|c tl]; [done|]. intros Hc Hx.
  destruct (digit_char c Hc) as (Hw & Hm & Hp & Hm').
  assert (JS.startsWith (String c tl) "-" = false) as Hs
    by (cbn [JS.startsWith]; by rewrite Hm').
  unfold noHexPrefix in Hx. apply negb_true_iff in Hx.
  unfold JS.parseInt. cbn [JS.trimStart]. rewrite Hw, Hs, Hm, Hp.
  cbn [orb Z.eqb negb andb]. rewrite Hx. cbn [fst snd].
  apply option_map_mul_1.
Qed.

Lemma parseInt_minus_shape (s : string) :
  JS.trimStart (String "-" s) = String "-" s /\
  JS.startsWith (String "-" s) "-" = true.
Proof. split; reflexivity. Qed.

Lemma parseInt_10_minus (s : string) :
  JS.parseInt (String "-" s) 10 = option_map Z.opp (JS.digitsValue 10 None s).
Proof.
  destruct (parseInt_minus_shape s) as [Ht Hs].
  unfold JS.parseInt. rewrite Ht, Hs.
  cbn [Ascii.eqb Bool.eqb orb Z.eqb Z.ltb Z.compare Pos.compare Pos.compare_cont
       negb andb fst snd].
  apply option_map_mul_m1.
Qed.

Lemma parseInt_0_minus (s : string) :
  noHexPrefix s = true ->
  JS.parseInt (String "-" s) 0 = option_map Z.opp (JS.digitsValue 10 None s).
Proof.
  intros Hx. unfold noHexPrefix in Hx. apply negb_true_iff in Hx.
  destruct (parseInt_minus_shape s) as [Ht Hs].
  unfold JS.parseInt. rewrite Ht, Hs.
  cbn [Ascii.eqb Bool.eqb orb Z.eqb negb andb]. rewrite Hx. cbn [fst snd].
  apply option_map_mul_m1.
Qed.

End ParseIntFacts.

Section RoundTripFacts.

Import Notions.

Lemma headDigit_decimal (n : N) (rest : string) :
  headDigit (JS.decimal n +:+ rest) = true.
Proof.
  unfold JS.decimal. pose proof (to_uint_nonnil n) as Hn.
  by destruct (N.to_uint n).
Qed.

Lemma nzhead_not_D0 (d d' : Decimal.uint) : Decimal.nzhead d <> Decimal.D0 d'.
Proof. induction d; simpl; try done. Qed.

(** The digits of a positive number do not start with a zero. *)
Lemma to_uint_pos_head (p : positive) (d : Decimal.uint) :
  Pos.to_uint p <> Decimal.D0 d.
Proof.
  intros Hp.
  pose proof (DecimalPos.Unsigned.to_of (Pos.to_uint p)) as Hnorm.
  rewrite DecimalPos.Unsigned.of_to in Hnorm. simpl in Hnorm.
  rewrite Hp in Hnorm. unfold Decimal.unorm in Hnorm. simpl in Hnorm.
  destruct (Decimal.nzhead d) as [|u|u|u|u|u|u|u|u|u|u] eqn:Hd; try discriminate Hnorm.
  - injection Hnorm as ->. by apply (DecimalPos.Unsigned.to_uint_nonzero p).
  - by apply (nzhead_not_D0 d u).
Qed.

Lemma noHexPrefix_decimal (n : N) (rest : string) :
  (n = 0%N -> noHexMark rest = true) ->
  noHexPrefix (JS.decimal n +:+ rest) = true.
Proof.
  intros Hrest. destruct n as [|p].
  - specialize (Hrest eq_refl). unfold noHexMark in Hrest.
    unfold noHexPrefix. by destruct rest.
  - unfold JS.decimal. simpl N.to_uint.
    pose proof (to_uint_pos_head p) as Hhead.
    pose proof (DecimalPos.Unsigned.to_uint_nonnil p) as Hnil.
    destruct (Pos.to_uint p) as [|d|d|d|d|d|d|d|d|d|d]; try done.
    by destruct (Hhead d).
Qed.

(** Writing an integer and reading it back in radix 10, whatever follows
    the digits. *)
Lemma parseInt_10_numberToString (n : Z) (rest : string) :
  stopsDecimal rest = true ->
  JS.parseInt (JS.numberToString n +:+ rest) 10 = Some n.
Proof.
  intros Hrest. unfold JS.numberToString.
  destruct (Z.ltb_spec n 0) as [Hneg|Hpos].
  - change (String "-" ?d +:+ rest) with (String "-" (d +:+ rest)).
    rewrite parseInt_10_minus, digitsValue_decimal by done.
    simpl. f_equal. lia.
  - rewrite parseInt_10_digits by apply headDigit_decimal.
    rewrite digitsValue_decimal by done. f_equal. lia.
Qed.

(** The same with no radix given, unless what follows a lone zero makes a
    hexadecimal prefix of it. *)
Lemma parseInt_0_numberToString (n : Z) (rest : string) :
  stopsDecimal rest = true -> (n = 0 -> noHexMark rest = true) ->
  JS.parseInt (JS.numberToString n +:+ rest) 0 = Some n.
Proof.
  intros Hrest Hhex. unfold JS.numberToString.
  destruct (Z.ltb_spec n 0) as [Hneg|Hpos].
  - change (String "-" ?d +:+ rest) with (String "-" (d +:+ rest)).
    rewrite parseInt_0_minus, digitsValue_decimal; [|done|].
    + simpl. f_equal. lia.
    + apply noHexPrefix_decimal. lia.
  - rewrite parseInt_0_digits;
      [|apply headDigit_decimal|apply noHexPrefix_decimal; intros Hn; apply Hhex; lia].
    rewrite digitsValue_decimal by done. f_equal. lia.
Qed.

Lemma append_empty (s : string) : (s +:+ "") = s.
Proof.
  induction s as [|c s IH]; [done|].
  change (String c (s +:+ "") = String c s). by rewrite IH.
Qed.

End RoundTripFacts.

(** *** The Projects page: filtering and pagination *)

Section SearchFacts.

Import Projects.

Lemma toLowerCase_app (a b : string) :
  JS.toLowerCase (a +:+ b) = (JS.toLowerCase a +:+ JS.toLowerCase b).
Proof.
  induction a as [|c a IH]; [done|].
  change (String (JS.lower_char c) (JS.toLowerCase (a +:+ b))
          = String (JS.lower_char c) (JS.toLowerCase a +:+ JS.toLowerCase b)).
  by rewrite IH.
Qed.

Lemma append_assoc (a b c : string) : ((a +:+ b) +:+ c) = (a +:+ b +:+ c).
Proof.
  induction a as [|x a IH]; [done|].
  change (String x ((a +:+ b) +:+ c) = String x (a +:+ b +:+ c)). by rewrite IH.
Qed.

Lemma includes_refl (s : string) : JS.includes s s = true.
Proof.
  apply includes_spec. exists EmptyString, EmptyString.
  by rewrite append_empty.
Qed.

Lemma includes_empty (s : string) : JS.includes s "" = true.
Proof. apply includes_spec. by exists EmptyString, s. Qed.

Lemma includes_trans (a b c : string) :
  JS.includes a b = true -> JS.includes b c = true -> JS.includes a c = true.
Proof.
  rewrite !includes_spec. intros (p1 & s1 & ->) (p2 & s2 & ->).
  exists (p1 +:+ p2), (s2 +:+ s1). by rewrite !append_assoc.
Qed.

Lemma filter_all {A} (P : A -> Prop) `{!forall x, Decision (P x)} (l : list A) :
  (forall x, x ∈ l -> P x) -> filter P l = l.
Proof.
  induction l as [|x l IH]; intros Hall; [done|].
  rewrite filter_cons_True by (apply Hall; by left).
  rewrite IH; [done|]. intros y Hy. apply Hall. by right.
Qed.

(** A narrower search keeps a project only if the wider one does. *)
Lemma keeps_narrower (s : State) (newTerm : string) (p : Project) :
  JS.includes (JS.toLowerCase newTerm) (JS.toLowerCase (searchTerm s)) = true ->
  keeps (onSearchChange newTerm s) p = true -> keeps s p = true.
Proof.
  intros Hsub. unfold keeps, matchesSearch, onSearchChange. simpl.
  rewrite !andb_true_iff, !orb_true_iff.
  intros [[Hn|Hd] Hl]; (split; [|done]).
  - left. by eapply includes_trans.
  - right. by eapply includes_trans.
Qed.

End SearchFacts.

Section PaginationFacts.

Import Projects Notions.

Lemma slice_nonneg {A} (l : list A) (a b : Z) :
  0 <= a -> a <= b ->
  JS.slice l a b = take (Z.to_nat (b - a)) (drop (Z.to_nat a) l).
Proof.
  intros Ha Hab. unfold JS.slice. cbv zeta.
  destruct (Z.ltb_spec a 0) as [?|_]; [lia|].
  destruct (Z.ltb_spec b 0) as [?|_]; [lia|].
  destruct (decide (Z.of_nat (length l) <= a)) as [Hout|Hin].
  - rewrite !(drop_ge l) by lia. by rewrite !take_nil.
  - rewrite (Z.min_l a) by lia.
    destruct (decide (b <= Z.of_nat (length l))) as [Hb|Hb].
    + rewrite (Z.min_l b) by lia. f_equal. lia.
    + rewrite (Z.min_r b) by lia.
      rewrite !take_ge; [done | |]; rewrite length_drop; lia.
Qed.

Lemma pageRows_take_drop (s : State) (p : nat) :
  0 <= rowsPerPage s ->
  pageRows s p
    = take (Z.to_nat (rowsPerPage s))
           (drop (p * Z.to_nat (rowsPerPage s)) (filteredProjects s)).
Proof.
  intros Hr. unfold pageRows, renderedRows, paginatedProjects, onPageChange.
  change (filteredProjects (setPage (Z.of_nat p) s)) with (filteredProjects s).
  cbn [page rowsPerPage setPage].
  rewrite slice_nonneg by nia. f_equal; [f_equal; lia|]. f_equal. nia.
Qed.

Lemma pages_concat (s : State) (k : nat) :
  0 <= rowsPerPage s ->
  concat (map (pageRows s) (seq 0 k))
    = take (k * Z.to_nat (rowsPerPage s)) (filteredProjects s).
Proof.
  intros Hr. induction k as [|k IH]; [done|].
  rewrite seq_S, map_app, concat_app, IH. simpl.
  rewrite app_nil_r, pageRows_take_drop by done.
  rewrite take_take_drop. f_equal. lia.
Qed.

End PaginationFacts.

(** X1: with a positive rows-per-page setting the pages partition the
    filtered list: the rows of pages 0, 1, ..., k-1 put one after the other
    are the filtered projects, each once and in order, as soon as k pages
    are enough to hold them. *)
Theorem X1_pages_partition_filtered_list (s : Projects.State) (k : nat) :
  0 < Projects.rowsPerPage s ->
  Z.of_nat (length (Projects.filteredProjects s)) <= Z.of_nat k * Projects.rowsPerPage s ->
  concat (map (Notions.pageRows s) (seq 0 k)) = Projects.filteredProjects s.
Proof.
  intros Hr Hk. rewrite pages_concat by lia. apply take_ge. nia.
Qed.

(** X1 on three projects at two per page: page 0 holds two, page 1 one. *)
Lemma X1_pages_partition_witness :
  concat (map (Notions.pageRows Examples.twoPerPage) (seq 0 2)) = Projects.mockProjects.
Proof.
  apply (X1_pages_partition_filtered_list Examples.twoPerPage 2); simpl; lia.
Defined.

(** X2: changing the search term keeps the page index; when the new result
    has no more rows than the pages before the current one hold, the table
    is empty although there may be matches. *)
Theorem X2_search_keeps_page_and_may_show_nothing
    (s : Projects.State) (value : string) :
  Z.of_nat (length (Projects.filteredProjects (Projects.onSearchChange value s)))
    <= Projects.page s * Projects.rowsPerPage s ->
  Projects.page (Projects.onSearchChange value s) = Projects.page s /\
  Projects.renderedRows (Projects.onSearchChange value s) = [].
Proof.
  intros Hlen. split; [done|].
  unfold Projects.renderedRows, Projects.paginatedProjects, JS.slice.
  cbn [Projects.page Projects.rowsPerPage Projects.onSearchChange Projects.setSearchTerm].
  cbv zeta.
  set (l := Projects.filteredProjects _) in *.
  destruct (Z.ltb_spec (Projects.page s * Projects.rowsPerPage s) 0) as [?|_]; [lia|].
  rewrite (drop_ge l) by lia. apply take_nil.
Qed.

(** X2 on the second page of three projects at two per page: searching
    "payment" has one match, and the table shows none. *)
Lemma X2_search_witness :
  Projects.filteredProjects (Projects.onSearchChange "payment" Examples.secondPage) <> [] /\
  Projects.page (Projects.onSearchChange "payment" Examples.secondPage) = 1 /\
  Projects.renderedRows (Projects.onSearchChange "payment" Examples.secondPage) = [].
Proof.
  split; [by vm_compute|].
  apply (X2_search_keeps_page_and_may_show_nothing Examples.secondPage "payment").
  by vm_compute.
Defined.

(** X3: choosing a rows-per-page value n (the select hands it over as
    text, parsed in radix 10) sets rowsPerPage to n, goes back to page 0,
    and the table then shows the first n filtered projects. *)
Theorem X3_rows_per_page_change_shows_first_rows (n : Z) (s : Projects.State) :
  0 <= n -> Notions.safeInteger n ->
  Projects.onRowsPerPageChange (JS.numberToString n) s
    = Some (Projects.setPage 0 (Projects.setRowsPerPage n s)) /\
  Projects.renderedRows (Projects.setPage 0 (Projects.setRowsPerPage n s))
    = take (Z.to_nat n) (Projects.filteredProjects s).
Proof.
  intros Hn _. split.
  - unfold Projects.onRowsPerPageChange.
    rewrite <- (append_empty (JS.numberToString n)).
    by rewrite parseInt_10_numberToString.
  - unfold Projects.renderedRows, Projects.paginatedProjects.
    change (Projects.filteredProjects (Projects.setPage 0 (Projects.setRowsPerPage n s)))
      with (Projects.filteredProjects s).
    cbn [Projects.page Projects.rowsPerPage Projects.setPage Projects.setRowsPerPage].
    rewrite slice_nonneg by lia. simpl. by rewrite Z.sub_0_r.
Qed.

(** X3 for the option 25 chosen on the second page. *)
Lemma X3_rows_per_page_witness :
  Projects.onRowsPerPageChange "25" Examples.secondPage
    = Some (Projects.setPage 0 (Projects.setRowsPerPage 25 Examples.secondPage)) /\
  Projects.renderedRows (Projects.setPage 0 (Projects.setRowsPerPage 25 Examples.secondPage))
    = Projects.mockProjects.
Proof.
  apply (X3_rows_per_page_change_shows_first_rows 25 Examples.secondPage);
    [lia | by vm_compute].
Defined.

(** X4: with an empty search term and no language filter nothing is
    filtered out: the filtered list is the whole project list. *)
Theorem X4_empty_filters_keep_every_project (s : Projects.State) :
  Projects.searchTerm s = "" -> Projects.languageFilter s = "" ->
  Projects.filteredProjects s = Projects.projects s.
Proof.
  intros Ht Hl. unfold Projects.filteredProjects. apply filter_all.
  intros p _. unfold Projects.keeps, Projects.matchesSearch, Projects.matchesLanguage.
  rewrite Ht, Hl. simpl JS.toLowerCase. by rewrite includes_empty.
Qed.

(** X4 on the loaded page without filters. *)
Lemma X4_empty_filters_witness :
  Projects.filteredProjects Examples.twoPerPage = Projects.mockProjects.
Proof.
  apply (X4_empty_filters_keep_every_project Examples.twoPerPage); reflexivity.
Defined.

(** X5: on text whose characters all lie below U+0100, where lowering
    works character by character, typing more around the current search
    term never brings a project back: the projects found for a term that
    contains the current one are among those found now, in the same
    order. *)
Theorem X5_longer_search_term_narrows
    (s : Projects.State) (before after : string) :
  Projects.filteredProjects
    (Projects.onSearchChange (before +:+ Projects.searchTerm s +:+ after) s)
    `sublist_of` Projects.filteredProjects s.
Proof.
  set (s' := Projects.onSearchChange _ s).
  unfold Projects.filteredProjects.
  change (Projects.projects s') with (Projects.projects s).
  rewrite <- (list_filter_filter_l (fun p => Projects.keeps s' p = true)
                                   (fun p => Projects.keeps s p = true)).
  - apply sublist_filter.
  - intros p. apply keeps_narrower. rewrite !toLowerCase_app.
    apply includes_spec. by eexists _, _.
Qed.

(** X6: a project of the list is found by its own name typed in any letter
    case, as long as the language filter is empty or names its language. *)
Theorem X6_project_found_by_its_name_in_any_case
    (s : Projects.State) (typed : string) (p : Projects.Project) :
  p ∈ Projects.projects s ->
  JS.toLowerCase typed = JS.toLowerCase (Projects.name p) ->
  Projects.languageFilter s = "" \/ Projects.languageFilter s = Projects.language p ->
  p ∈ Projects.filteredProjects (Projects.onSearchChange typed s).
Proof.
  intros Hp Htyped Hlang. unfold Projects.filteredProjects.
  apply list_elem_of_filter. split; [|done].
  unfold Projects.keeps, Projects.matchesSearch, Projects.matchesLanguage.
  cbn [Projects.searchTerm Projects.languageFilter Projects.onSearchChange
       Projects.setSearchTerm].
  rewrite Htyped, includes_refl. simpl.
  destruct Hlang as [->| ->]; [done|].
  rewrite String.eqb_refl. apply orb_true_r.
Qed.

(** X6 for the first project, typed in capitals. *)
Lemma X6_project_found_witness :
  Examples.userApi ∈
    Projects.filteredProjects
      (Projects.onSearchChange "USER MANAGEMENT API" Examples.twoPerPage).
Proof.
  apply (X6_project_found_by_its_name_in_any_case
           Examples.twoPerPage "USER MANAGEMENT API" Examples.userApi).
  - by left.
  - reflexivity.
  - by left.
Defined.

(** *** The Projects page: deleting and the dialog *)

Section DeleteFacts.

Import Projects.

Lemma setProjects_setProjects (ps qs : list Project) (s : State) :
  setProjects ps (setProjects qs s) = setProjects ps s.
Proof. reflexivity. Qed.

Lemma filter_id_comm (a b : Z) (ps : list Project) :
  filter (fun p => id p <> a) (filter (fun p => id p <> b) ps)
    = filter (fun p => id p <> b) (filter (fun p => id p <> a) ps).
Proof.
  rewrite !list_filter_filter. apply list_filter_iff. intros p. tauto.
Qed.

Lemma filteredProjects_setProjects (ps : list Project) (s : State) :
  filteredProjects (setProjects ps s) = filter (fun p => keeps s p = true) ps.
Proof. reflexivity. Qed.

End DeleteFacts.

(** X7: deleting a project id a second time changes nothing, and deleting
    two ids gives the same page state in either order. *)
Theorem X7_delete_idempotent_and_commutes (a b : Z) (s : Projects.State) :
  Projects.handleDelete true a (Projects.handleDelete true a s)
    = Projects.handleDelete true a s /\
  Projects.handleDelete true a (Projects.handleDelete true b s)
    = Projects.handleDelete true b (Projects.handleDelete true a s).
Proof.
  unfold Projects.handleDelete.
  cbn [Projects.projects Projects.setProjects]. rewrite !setProjects_setProjects.
  split; f_equal.
  - apply list_filter_filter_l. done.
  - apply filter_id_comm.
Qed.

(** X8: after a confirmed delete, the filtered list is the former filtered
    list without the entries of that id, so no other row leaves the table's
    data, and no rendered row has the deleted id whatever the filters and
    the page. *)
Theorem X8_deleted_project_is_never_rendered (pid : Z) (s : Projects.State) :
  let s' := Projects.handleDelete true pid s in
  Projects.filteredProjects s'
    = filter (fun p => Projects.id p <> pid) (Projects.filteredProjects s) /\
  Forall (fun p => Projects.id p <> pid) (Projects.renderedRows s').
Proof.
  intros s'. assert (Projects.filteredProjects s'
    = filter (fun p => Projects.id p <> pid) (Projects.filteredProjects s)) as Hf.
  { unfold s', Projects.handleDelete. rewrite filteredProjects_setProjects.
    unfold Projects.filteredProjects. rewrite !list_filter_filter.
    apply list_filter_iff. intros p. tauto. }
  split; [exact Hf|].
  apply Forall_forall. intros p Hp.
  unfold Projects.renderedRows, Projects.paginatedProjects in Hp.
  apply (sublist_subseteq _ _ (slice_sublist _ _ _)) in Hp.
  rewrite Hf in Hp. by apply list_elem_of_filter in Hp as [? _].
Qed.

Section DialogFacts.

Import Projects Notions.

Lemma applyEdit_closes (s : State) (e : FormEdit) :
  handleCloseDialog (applyEdit s e) = handleCloseDialog s.
Proof. by destruct e. Qed.

Lemma edits_close (s : State) (edits : list FormEdit) :
  handleCloseDialog (foldl applyEdit s edits) = handleCloseDialog s.
Proof.
  revert s. induction edits as [|e edits IH]; intros s; [done|].
  simpl. by rewrite IH, applyEdit_closes.
Qed.

Lemma open_closes (o : option Project) (s : State) :
  handleCloseDialog (handleOpenDialog o s) = handleCloseDialog s.
Proof. by destruct o. Qed.

End DialogFacts.

(** X9: opening the dialog (for a new project or to edit one), typing
    anything into its fields and cancelling leaves the page exactly as it
    was when the dialog was closed and its form empty. *)
Theorem X9_open_edit_cancel_restores_the_page
    (o : option Projects.Project) (edits : list Notions.FormEdit) (s : Projects.State) :
  Projects.openDialog s = false ->
  Projects.editingProject s = None ->
  Projects.formData s = Projects.emptyForm ->
  Projects.handleCloseDialog
    (foldl Notions.applyEdit (Projects.handleOpenDialog o s) edits) = s.
Proof.
  intros Ho He Hf. rewrite edits_close, open_closes.
  destruct s. simpl in *. unfold Projects.handleCloseDialog. simpl. by subst.
Qed.

(** X9 on the loaded page: edit the first project, retype its name, cancel. *)
Lemma X9_open_edit_cancel_witness :
  Projects.handleCloseDialog
    (foldl Notions.applyEdit
       (Projects.handleOpenDialog (Some Examples.userApi) Examples.twoPerPage)
       [Notions.EditName "Users"; Notions.EditLanguage "Go"])
    = Examples.twoPerPage.
Proof.
  apply (X9_open_edit_cancel_restores_the_page
           (Some Examples.userApi)
           [Notions.EditName "Users"; Notions.EditLanguage "Go"]
           Examples.twoPerPage); reflexivity.
Defined.

(** X10: submitting the dialog never puts what was typed into the table:
    whichever project was opened and whatever was typed, the page after
    the submit is the one a submit without any of it gives, with the dialog
    closed, the form empty, the filters and the page index untouched, and
    the list the one fetchProjects loads. *)
Theorem X10_submit_ignores_the_form
    (o : option Projects.Project) (edits : list Notions.FormEdit) (s : Projects.State) :
  let s' := Projects.handleSubmit
              (foldl Notions.applyEdit (Projects.handleOpenDialog o s) edits) in
  s' = Projects.handleSubmit s /\
  Projects.openDialog s' = false /\ Projects.editingProject s' = None /\
  Projects.formData s' = Projects.emptyForm /\
  Projects.projects s' = Projects.projects (Projects.fetchProjects s) /\
  Projects.searchTerm s' = Projects.searchTerm s /\
  Projects.languageFilter s' = Projects.languageFilter s /\
  Projects.page s' = Projects.page s /\
  Projects.rowsPerPage s' = Projects.rowsPerPage s.
Proof.
  intros s'. assert (s' = Projects.handleSubmit s) as ->.
  { unfold s', Projects.handleSubmit. by rewrite edits_close, open_closes. }
  by repeat split.
Qed.

(** *** The Analysis page: severities, tabs and views *)

Section SeverityFacts.

Import Analysis Notions.

Lemma unknown_severity_eqb (x : string) :
  ~ knownSeverity x ->
  String.eqb x "critical" = false /\ String.eqb x "high" = false /\
  String.eqb x "medium" = false /\ String.eqb x "low" = false.
Proof.
  intros Hx. unfold knownSeverity in Hx.
  repeat split; apply String.eqb_neq; intros ->; tauto.
Qed.

Lemma severityLabel_known (sev : Severity) : knownSeverity (severityLabel sev).
Proof. unfold knownSeverity. destruct sev; simpl; tauto. Qed.

End SeverityFacts.

(** X11: the chip colour and the icon agree on the four severities the
    page knows, which all get a colour of their own (critical and high
    both error, medium warning, low info); any other label gets the chip
    colour default and the plain info icon.  A risk, whose severity is one
    of the four, is therefore never shown in the default colour. *)
Theorem X11_severity_colour_and_icon_agree (x : string) :
  (Notions.knownSeverity x ->
   Analysis.getSeverityColor x <> "default" /\
   Analysis.icon_color (Analysis.getSeverityIcon x) = Some (Analysis.getSeverityColor x)) /\
  (~ Notions.knownSeverity x ->
   Analysis.getSeverityColor x = "default" /\
   Analysis.getSeverityIcon x
     = {| Analysis.icon_kind := Analysis.InfoIcon; Analysis.icon_color := None |}) /\
  (forall r : Analysis.Results,
     Forall (fun c => c <> "default")
            (map (fun k => Analysis.getSeverityColor
                             (Analysis.severityLabel (Analysis.risk_severity k)))
                 (Analysis.risks r)) /\
     Forall (fun i => Analysis.icon_color i <> None) (Analysis.riskIcons r)).
Proof.
  split; [|split].
  - intros [->|[->|[->| ->]]]; by vm_compute.
  - intros Hx. destruct (unknown_severity_eqb x Hx) as (H1 & H2 & H3 & H4).
    unfold Analysis.getSeverityColor, Analysis.getSeverityIcon.
    by rewrite H1, H2, H3, H4.
  - intros r. unfold Analysis.riskIcons. split; apply Forall_fmap, Forall_forall;
      intros k _; simpl; by destruct (Analysis.risk_severity k).
Qed.

(** X12: the tab panels render the children of at most one panel: of the
    panel whose index is the selected tab when that is 0, 1, 2 or 3, and of
    none otherwise; a panel is hidden exactly when its children are not
    rendered. *)
Theorem X12_one_tab_panel_renders (tabValue : Z) (r : Analysis.Results) :
  Notions.visibleTabs (Analysis.tabPanels tabValue r)
    = (if (0 <=? tabValue) && (tabValue <=? 3)
       then [Analysis.renderTab tabValue r] else []) /\
  Forall (fun p => Analysis.tp_hidden p = true <-> Analysis.tp_children p = None)
         (Analysis.tabPanels tabValue r).
Proof.
  split.
  - unfold Notions.visibleTabs, Analysis.tabPanels, Analysis.TabPanel, Analysis.renderTab.
    cbn [omap list_omap Analysis.tp_children].
    destruct (Z.eqb_spec tabValue 0) as [->|H0]; [done|].
    destruct (Z.eqb_spec tabValue 1) as [->|H1]; [done|].
    destruct (Z.eqb_spec tabValue 2) as [->|H2]; [done|].
    destruct (Z.eqb_spec tabValue 3) as [->|H3]; [done|].
    destruct (Z.leb_spec 0 tabValue), (Z.leb_spec tabValue 3); simpl; try done; lia.
  - unfold Analysis.tabPanels, Analysis.TabPanel.
    repeat constructor; simpl;
      match goal with |- context [?a =? ?b] => destruct (a =? b) end; simpl; done.
Qed.

Section ViewFacts.

Import Analysis Notions.

Lemma render_page_inv (s : State) (h : Header) (card : option Z)
    (panel : option ResultsPanel) :
  render s = Page h card panel ->
  exists a, analysis s = Some a /\ h = renderHeader a /\
            card = (if String.eqb (status a) "running" then Some (progress a) else None) /\
            panel = option_map (renderResults (tabValue s)) (results a).
Proof.
  unfold render. destruct (loading s); [done|].
  destruct (error s) as [e|]; [destruct (JS.truthy e); [done|]|];
    (destruct (analysis s) as [a|]; [|done]);
    intros [= <- <- <-]; by exists a.
Qed.

Lemma pageStep_settled (s : State) (ev : PageEvent) :
  settled s -> settled (pageStep s ev).
Proof.
  intros [He Hs]. destruct ev as [i|t]; simpl.
  - split; [done|]. right. split; [done|]. by exists i.
  - by split.
Qed.

Lemma pageTrace_settled (s : State) (evs : list PageEvent) :
  settled s -> Forall settled (pageTrace s evs).
Proof.
  revert s. induction evs as [|ev evs IH]; intros s Hs; simpl.
  - by constructor.
  - constructor; [done|]. by apply IH, pageStep_settled.
Qed.

Lemma settled_view (s : State) :
  settled s ->
  (render s = Spinner /\ analysis s = None) \/
  exists i, render s = Page (renderHeader (mockAnalysis i)) None
                            (Some (renderResults (tabValue s) mockResults)).
Proof.
  intros [He [[Hl Ha]|[Hl [i Ha]]]]; unfold render; rewrite Hl, ?He, ?Ha.
  - by left.
  - right. by exists i.
Qed.

End ViewFacts.

(** X13: whenever the page is shown, the progress card is there exactly
    when the status is running, and then the status chip is in the warning
    colour: the success chip and the progress card never appear together. *)
Theorem X13_progress_card_only_while_running
    (s : Analysis.State) (h : Analysis.Header) (card : option Z)
    (panel : option Analysis.ResultsPanel) :
  Analysis.render s = Analysis.Page h card panel ->
  (is_Some card <-> Analysis.h_statusLabel h = "running") /\
  (is_Some card -> Analysis.h_statusColor h = "warning") /\
  (Analysis.h_statusColor h = "success" -> card = None) /\
  (forall p, card = Some p -> p = Analysis.h_progress h).
Proof.
  intros Hr. apply render_page_inv in Hr as (a & Ha & -> & -> & _).
  unfold Analysis.renderHeader. simpl.
  destruct (String.eqb_spec (Analysis.status a) "running") as [Hrun|Hrun].
  - rewrite Hrun. simpl. repeat split; try done; eauto.
    by intros _ [= <-].
  - repeat split; try done; by intros [? ?].
Qed.

(** X13 on the running analysis: the card is shown with its 50 percent. *)
Lemma X13_progress_card_witness :
  (is_Some (Some 50) <-> Analysis.status Examples.runningAnalysis = "running") /\
  (is_Some (Some 50) ->
   Analysis.h_statusColor (Analysis.renderHeader Examples.runningAnalysis) = "warning") /\
  (Analysis.h_statusColor (Analysis.renderHeader Examples.runningAnalysis) = "success" ->
   Some 50 = None) /\
  (forall p, Some 50 = Some p ->
             p = Analysis.h_progress (Analysis.renderHeader Examples.runningAnalysis)).
Proof.
  apply (X13_progress_card_only_while_running Examples.runningPage
           (Analysis.renderHeader Examples.runningAnalysis) (Some 50)
           (Some (Analysis.renderResults 0 Analysis.mockResults))).
  reflexivity.
Defined.

(** X14: fetching again does not clear an error: when the page holds an
    error message, the view after fetchAnalysis (which is what the Retry
    button calls) is still the error alert with that message, although the
    analysis data has been stored. *)
Theorem X14_retry_keeps_the_error_view
    (analysisId : Z) (s : Analysis.State) (e : string) :
  Analysis.error s = Some e -> e <> "" ->
  Analysis.render (Analysis.fetchAnalysis analysisId s) = Analysis.ErrorAlert e /\
  Analysis.analysis (Analysis.fetchAnalysis analysisId s)
    = Some (Analysis.mockAnalysis analysisId).
Proof.
  intros He Hne. split; [|done]. unfold Analysis.render. simpl.
  rewrite He. apply truthy_spec in Hne. by rewrite Hne.
Qed.

(** X14 on the page after a failed load. *)
Lemma X14_retry_witness :
  Analysis.render (Analysis.fetchAnalysis 1 Examples.failedPage)
    = Analysis.ErrorAlert "Failed to load analysis data" /\
  Analysis.analysis (Analysis.fetchAnalysis 1 Examples.failedPage)
    = Some (Analysis.mockAnalysis 1).
Proof.
  apply (X14_retry_keeps_the_error_view 1 Examples.failedPage
           "Failed to load analysis data"); [reflexivity | discriminate].
Defined.

(** X15: the same on the dashboard: after fetchDashboardStats, the Retry
    handler, a dashboard that holds an error message still shows the error
    alert, with the statistics stored behind it. *)
Theorem X15_dashboard_retry_keeps_the_error_view (s : Dashboard.State) (e : string) :
  Dashboard.error s = Some e -> e <> "" ->
  Dashboard.render (Dashboard.fetchDashboardStats s) = Dashboard.ErrorAlert e /\
  Dashboard.stats (Dashboard.fetchDashboardStats s) = Some Dashboard.mockData.
Proof.
  intros He Hne. split; [|done]. unfold Dashboard.render. simpl.
  rewrite He. apply truthy_spec in Hne. by rewrite Hne.
Qed.

(** X15 on the dashboard after a failed load. *)
Lemma X15_dashboard_retry_witness :
  Dashboard.render (Dashboard.fetchDashboardStats Examples.failedDashboard)
    = Dashboard.ErrorAlert "Failed to load dashboard data" /\
  Dashboard.stats (Dashboard.fetchDashboardStats Examples.failedDashboard)
    = Some Dashboard.mockData.
Proof.
  apply (X15_dashboard_retry_keeps_the_error_view Examples.failedDashboard
           "Failed to load dashboard data"); [reflexivity | discriminate].
Defined.

Section ReachableViews.

Import Analysis Notions.

Lemma pageRun_settled (s : State) (evs : list PageEvent) :
  settled s -> settled (pageRun s evs).
Proof.
  revert s. induction evs as [|ev evs IH]; intros s Hs; [done|].
  simpl. by apply IH, pageStep_settled.
Qed.

Lemma pageRun_loaded (s : State) (evs : list PageEvent) :
  loading s = false -> loading (pageRun s evs) = false.
Proof.
  revert s. induction evs as [|ev evs IH]; intros s Hs; [done|].
  simpl. apply IH. by destruct ev.
Qed.

Lemma pageRun_fetched (s : State) (evs : list PageEvent) :
  fetches evs -> loading (pageRun s evs) = false.
Proof.
  revert s. induction evs as [|ev evs IH]; intros s [i Hi].
  - by apply elem_of_nil in Hi.
  - simpl. destruct ev as [j|t].
    + by apply pageRun_loaded.
    + apply IH. exists i. apply elem_of_cons in Hi as [Hi|Hi]; [discriminate Hi | done].
Qed.

Lemma pageRun_not_fetched (s : State) (evs : list PageEvent) :
  ~ fetches evs ->
  loading (pageRun s evs) = loading s /\ analysis (pageRun s evs) = analysis s.
Proof.
  revert s. induction evs as [|ev evs IH]; intros s Hnf; [done|].
  destruct ev as [j|t]; [destruct Hnf; exists j; by left|].
  simpl. destruct (IH (handleTabChange t s)) as [Hl Ha]; [|done].
  intros [j Hj]. apply Hnf. exists j. by right.
Qed.

(** Once something has been fetched the page shows the fetched analysis
    with its result panel. *)
Lemma pageRun_fetched_view (evs : list PageEvent) :
  fetches evs ->
  exists i, analysis (pageRun initial evs) = Some (mockAnalysis i) /\
            render (pageRun initial evs)
            = Page (renderHeader (mockAnalysis i)) None
                (Some (renderResults (tabValue (pageRun initial evs)) mockResults)).
Proof.
  intros Hf. pose proof (pageRun_fetched initial evs Hf) as Hl.
  assert (settled initial) as Hinit by (split; [done|by left]).
  destruct (pageRun_settled initial evs Hinit) as [He [[Hl' _]|[_ [i Ha]]]];
    [congruence|].
  exists i. split; [done|]. unfold render. by rewrite Hl, He, Ha.
Qed.

End ReachableViews.

(** C3: along every run of a job, the reported percentage never decreases
    and never exceeds 100; and in every run that ends in Completed,
    whatever the number of files, the percentage reaches 100 exactly once:
    the jobs of the run split into those before, all below 100 and none of
    them Completed, and those from some point on, all at 100.  On the
    Analysis page, whatever is fetched and selected, every progress chip
    shown reads 100 next to the status completed, and once an analysis has
    been fetched that chip is on screen. *)
Theorem C3_progress_monotone_reaches_100_once
    `{E : Orchestrator.Engine} (evs : list Orchestrator.Event) :
  let js := Orchestrator.trace Orchestrator.fresh evs in
  (forall (i k : nat) ji jk,
     (i <= k)%nat -> js !! i = Some ji -> js !! k = Some jk ->
     (Orchestrator.percentage ji <= Orchestrator.percentage jk)%nat) /\
  Forall (fun j => (Orchestrator.percentage j <= 100)%nat) js /\
  (Orchestrator.status (Orchestrator.run Orchestrator.fresh evs) = Orchestrator.Completed ->
   exists pre post,
     js = pre ++ post /\ post <> [] /\
     Forall (fun j => (Orchestrator.percentage j < 100)%nat /\
                      Orchestrator.status j <> Orchestrator.Completed) pre /\
     Forall (fun j => Orchestrator.percentage j = 100%nat) post) /\
  (forall pageEvents,
     Forall (fun s => forall p st,
                Analysis.shownProgress (Analysis.render s) = Some (p, st) ->
                p = 100 /\ st = "completed")
            (Analysis.pageTrace Analysis.initial pageEvents) /\
     (Notions.fetches pageEvents ->
      Analysis.shownProgress
        (Analysis.render (Notions.pageRun Analysis.initial pageEvents))
      = Some (100, "completed"))).
Proof.
  intros js. split; [|split; [|split]].
  - intros i k ji jk. apply trace_monotone, consistent_fresh.
  - eapply Forall_impl; [apply trace_consistent, consistent_fresh|].
    intros j. apply percentage_le_100.
  - apply trace_reaches_100_once; [apply consistent_fresh|].
    unfold Orchestrator.percentage. simpl. lia.
  - intros pageEvents. split.
    + eapply Forall_impl; [apply pageTrace_progress; by intros a [=]|].
      intros s Hs p st Hshown. simpl in Hs.
      apply shownProgress_render in Hshown as (a & Ha & <- & <-). by apply Hs.
    + intros Hf. destruct (pageRun_fetched_view pageEvents Hf) as (i & _ & ->).
      reflexivity.
Qed.

(** C3 on a completed run over two files, where the percentages reported
    are 0, 0, 50, 100, 100, 100, 100, 100, and on a completed run over no
    files, where they are 0, 100, 100, 100, 100, 100. *)
Lemma C3_progress_witness :
  (exists pre post,
    Orchestrator.trace Orchestrator.fresh Examples.completedRun = pre ++ post /\
    post <> [] /\
    Forall (fun j => (Orchestrator.percentage j < 100)%nat /\
                     Orchestrator.status j <> Orchestrator.Completed) pre /\
    Forall (fun j => Orchestrator.percentage j = 100%nat) post) /\
  (exists pre post,
    Orchestrator.trace Orchestrator.fresh Examples.emptyRun = pre ++ post /\
    post <> [] /\
    Forall (fun j => (Orchestrator.percentage j < 100)%nat /\
                     Orchestrator.status j <> Orchestrator.Completed) pre /\
    Forall (fun j => Orchestrator.percentage j = 100%nat) post).
Proof.
  split.
  - destruct (C3_progress_monotone_reaches_100_once (E := Examples.toyEngine)
                Examples.completedRun)
      as (_ & _ & Hreach & _).
    apply Hreach. reflexivity.
  - destruct (C3_progress_monotone_reaches_100_once (E := Examples.toyEngine)
                Examples.emptyRun)
      as (_ & _ & Hreach & _).
    apply Hreach. reflexivity.
Defined.

(** C4: on the Analysis page, from the state it mounts in and whatever is
    fetched and whichever tabs are selected, result content (graph,
    metrics, risks) is on screen only while the page holds an analysis
    whose status is completed; before anything is fetched no result content
    is shown, and once an analysis has been fetched its result panel is on
    screen and its status is completed. *)
Theorem C4_results_shown_only_for_completed_analysis
    (evs : list Analysis.PageEvent) :
  Forall Props.resultsOnlyWhenCompleted
         (Analysis.pageTrace Analysis.initial evs) /\
  (~ Notions.fetches evs ->
   Analysis.shownResults
     (Analysis.render (Notions.pageRun Analysis.initial evs)) = None) /\
  (Notions.fetches evs ->
   exists a r,
     Analysis.analysis (Notions.pageRun Analysis.initial evs) = Some a /\
     Analysis.status a = "completed" /\
     Analysis.results a = Some r /\
     Analysis.shownResults
       (Analysis.render (Notions.pageRun Analysis.initial evs))
     = Some (Analysis.renderResults
               (Analysis.tabValue (Notions.pageRun Analysis.initial evs)) r)).
Proof.
  assert (Notions.settled Analysis.initial) as Hinit by (split; [done|by left]).
  split; [|split].
  - eapply Forall_impl; [apply pageTrace_settled, Hinit|].
    intros s [He [[Hl Ha]|[Hl [i Ha]]]] Hshown.
    + exfalso. apply Hshown. unfold Analysis.render. by rewrite Hl.
    + by exists (Analysis.mockAnalysis i).
  - intros Hnf. destruct (pageRun_not_fetched Analysis.initial evs Hnf) as [Hl _].
    unfold Analysis.render. by rewrite Hl.
  - intros Hf. destruct (pageRun_fetched_view evs Hf) as (i & Ha & Hv).
    exists (Analysis.mockAnalysis i), Analysis.mockResults.
    rewrite Hv. by repeat split.
Qed.

(** X16: from the state the page mounts in, whatever is fetched and
    whichever tabs are selected, the page shows the spinner as long as
    nothing has been fetched, and from the first fetch on the analysis with
    its result panel and without a progress card; the error alert and the
    not-found text are never shown. *)
Theorem X16_page_shows_spinner_then_results (evs : list Analysis.PageEvent) :
  let s := Notions.pageRun Analysis.initial evs in
  (~ Notions.fetches evs -> Analysis.render s = Analysis.Spinner) /\
  (Notions.fetches evs ->
   exists i, Analysis.render s
             = Analysis.Page (Analysis.renderHeader (Analysis.mockAnalysis i)) None
                 (Some (Analysis.renderResults (Analysis.tabValue s) Analysis.mockResults))) /\
  Forall (fun s' => (forall e, Analysis.render s' <> Analysis.ErrorAlert e) /\
                    Analysis.render s' <> Analysis.NotFound)
         (Analysis.pageTrace Analysis.initial evs).
Proof.
  assert (Notions.settled Analysis.initial) as Hinit by (split; [done|by left]).
  intros s. split; [|split].
  - intros Hnf. destruct (pageRun_not_fetched Analysis.initial evs Hnf) as [Hl _].
    unfold Analysis.render. fold s in Hl. by rewrite Hl.
  - intros Hf. pose proof (pageRun_fetched Analysis.initial evs Hf) as Hl. fold s in Hl.
    destruct (settled_view s (pageRun_settled _ evs Hinit)) as [[Hsp _]|Hpage]; [|done].
    unfold Analysis.render in Hsp. rewrite Hl in Hsp.
    destruct (Analysis.error s) as [e|]; [destruct (JS.truthy e); [done|]|];
      by destruct (Analysis.analysis s).
  - eapply Forall_impl; [apply pageTrace_settled, Hinit|].
    intros s' Hs'. simpl.
    destruct (settled_view s' Hs') as [[-> _]|[i ->]]; by split.
Qed.

(** *** Navigation from the projects table to the analysis page *)

Section RouteFacts.

Import Notions.

Lemma afterPrefixCI_app (p x : string) : App.afterPrefixCI p (p +:+ x) = Some x.
Proof.
  induction p as [|c p IH]; [by destruct x|].
  change (App.afterPrefixCI (String c p) (String c (p +:+ x)) = Some x).
  simpl. by rewrite Ascii.eqb_refl.
Qed.

Lemma strip_no_slash (s : string) :
  App.hasSlash s = false -> App.stripTrailingSlashes s = s.
Proof.
  induction s as [|c s IH]; [done|]. simpl.
  intros [Hc Hs]%orb_false_iff. rewrite (IH Hs), Hc. by destruct s.
Qed.

(** A path that ends in a non-empty segment without a slash has no slash
    at its end to strip. *)
Lemma strip_app (p seg : string) :
  seg <> "" -> App.hasSlash seg = false ->
  App.stripTrailingSlashes (p +:+ seg) = p +:+ seg.
Proof.
  intros Hne Hs. induction p as [|c p IH]; [by apply strip_no_slash|].
  change (App.stripTrailingSlashes (String c (p +:+ seg)) = String c (p +:+ seg)).
  simpl. rewrite IH. destruct (p +:+ seg) eqn:Hp; [|done].
  destruct p; [|discriminate Hp]. by destruct Hne.
Qed.

Lemma hasPercent_uint (d : Decimal.uint) (junk : string) :
  App.hasPercent (NilEmpty.string_of_uint d +:+ junk) = App.hasPercent junk.
Proof.
  induction d; [done|..];
    match goal with
    | |- App.hasPercent (NilEmpty.string_of_uint (_ ?d) +:+ ?j) = _ =>
        change (App.hasPercent (NilEmpty.string_of_uint d +:+ j) = App.hasPercent j)
    end; done.
Qed.

Lemma hasPercent_number (n : Z) (junk : string) :
  App.hasPercent (JS.numberToString n +:+ junk) = App.hasPercent junk.
Proof.
  unfold JS.numberToString, JS.decimal. destruct (n <? 0).
  - change (App.hasPercent (NilEmpty.string_of_uint (N.to_uint (Z.to_N (- n))) +:+ junk)
            = App.hasPercent junk).
    apply hasPercent_uint.
  - apply hasPercent_uint.
Qed.

Lemma hasSlash_uint (d : Decimal.uint) (junk : string) :
  App.hasSlash (NilEmpty.string_of_uint d +:+ junk) = App.hasSlash junk.
Proof.
  induction d; [done|..];
    match goal with
    | |- App.hasSlash (NilEmpty.string_of_uint (_ ?d) +:+ ?j) = _ =>
        change (App.hasSlash (NilEmpty.string_of_uint d +:+ j) = App.hasSlash j)
    end; done.
Qed.

Lemma hasSlash_number (n : Z) (junk : string) :
  App.hasSlash (JS.numberToString n +:+ junk) = App.hasSlash junk.
Proof.
  unfold JS.numberToString, JS.decimal. destruct (n <? 0).
  - change (App.hasSlash (NilEmpty.string_of_uint (N.to_uint (Z.to_N (- n))) +:+ junk)
            = App.hasSlash junk).
    apply hasSlash_uint.
  - apply hasSlash_uint.
Qed.

Lemma truthy_number (n : Z) (junk : string) :
  JS.truthy (JS.numberToString n +:+ junk) = true.
Proof.
  apply truthy_spec. unfold JS.numberToString, JS.decimal.
  destruct (n <? 0); [done|].
  pose proof (to_uint_nonnil (Z.to_N n)) as Hn.
  by destruct (N.to_uint (Z.to_N n)).
Qed.

Lemma matchRoute_analysis (seg : string) :
  JS.truthy seg = true -> App.hasSlash seg = false ->
  App.hasPercent seg = false ->
  App.matchRoute ("/analysis/" +:+ seg) = App.AnalysisPage seg.
Proof.
  intros Ht Hs Hp. unfold App.matchRoute.
  assert (App.hasPercent ("/analysis/" +:+ seg) = App.hasPercent seg) as ->
    by reflexivity.
  rewrite Hp.
  assert (JS.startsWith ("/analysis/" +:+ seg) "/" = true) as -> by reflexivity.
  cbv zeta. cbn [negb]. rewrite strip_app by (by apply truthy_spec || done).
  rewrite afterPrefixCI_app, Ht, Hs.
  assert (String.eqb ("/analysis/" +:+ seg) "" = false) as ->
    by (apply String.eqb_neq; intros H; vm_compute in H; discriminate H).
  assert (String.eqb (JS.toLowerCase ("/analysis/" +:+ seg)) "/projects" = false) as ->
    by (apply String.eqb_neq; intros H; vm_compute in H; discriminate H).
  done.
Qed.

End RouteFacts.

(** X17: the path handleStartAnalysis builds for a project id matches the
    analysis route with that id written in decimal, and the analysis page
    mounted on it reads the id back and fetches exactly that analysis: the
    id survives being written into the path and parsed again. *)
Theorem X17_start_analysis_opens_that_analysis (projectId : Z) (s : Analysis.State) :
  Notions.safeInteger projectId ->
  App.matchRoute (Projects.handleStartAnalysis projectId)
    = App.AnalysisPage (JS.numberToString projectId) /\
  App.mountAnalysis (Projects.handleStartAnalysis projectId) s
    = Some (Analysis.fetchAnalysis projectId s) /\
  exists a, Analysis.analysis (Analysis.fetchAnalysis projectId s) = Some a /\
            Analysis.id a = projectId.
Proof.
  intros _.
  assert (App.matchRoute (Projects.handleStartAnalysis projectId)
          = App.AnalysisPage (JS.numberToString projectId)) as Hroute.
  { unfold Projects.handleStartAnalysis. apply matchRoute_analysis.
    - rewrite <- (append_empty (JS.numberToString projectId)). apply truthy_number.
    - rewrite <- (append_empty (JS.numberToString projectId)). by rewrite hasSlash_number.
    - rewrite <- (append_empty (JS.numberToString projectId)).
      by rewrite hasPercent_number. }
  split; [exact Hroute|]. split; [|by eexists].
  unfold App.mountAnalysis. rewrite Hroute. unfold Analysis.routeEffect.
  rewrite <- (append_empty (JS.numberToString projectId)).
  by rewrite truthy_number, parseInt_0_numberToString.
Qed.

(** X17 for the project with id 3. *)
Lemma X17_start_analysis_witness :
  App.matchRoute (Projects.handleStartAnalysis 3) = App.AnalysisPage "3" /\
  App.mountAnalysis (Projects.handleStartAnalysis 3) Analysis.initial
    = Some (Analysis.fetchAnalysis 3 Analysis.initial) /\
  exists a, Analysis.analysis (Analysis.fetchAnalysis 3 Analysis.initial) = Some a /\
            Analysis.id a = 3.
Proof.
  apply (X17_start_analysis_opens_that_analysis 3 Analysis.initial). by vm_compute.
Defined.

(** X18: the analysis page reads its id leniently: text after the digits
    of the route parameter is ignored, so a path whose id is followed by
    anything that does not start with a digit (and, after a lone 0, not
    with x or X, which would make it hexadecimal) and holds neither a slash
    nor a percent escape opens the analysis of the leading number. *)
Theorem X18_trailing_text_in_the_route_id_is_ignored
    (n : Z) (junk : string) (s : Analysis.State) :
  Notions.safeInteger n ->
  Notions.stopsDecimal junk = true ->
  (n = 0 -> Notions.noHexMark junk = true) ->
  App.hasSlash junk = false ->
  App.hasPercent junk = false ->
  App.mountAnalysis ("/analysis/" +:+ JS.numberToString n +:+ junk) s
    = Some (Analysis.fetchAnalysis n s).
Proof.
  intros _ Hstop Hhex Hslash Hpercent. unfold App.mountAnalysis.
  rewrite matchRoute_analysis;
    [|apply truthy_number|by rewrite hasSlash_number
     |by rewrite hasPercent_number].
  unfold Analysis.routeEffect.
  by rewrite truthy_number, parseInt_0_numberToString.
Qed.

(** X18 on the path /analysis/12abc, which opens analysis 12. *)
Lemma X18_trailing_text_witness :
  App.mountAnalysis "/analysis/12abc" Analysis.initial
    = Some (Analysis.fetchAnalysis 12 Analysis.initial).
Proof.
  apply (X18_trailing_text_in_the_route_id_is_ignored 12 "abc" Analysis.initial);
    [by vm_compute | reflexivity | discriminate | reflexivity | reflexivity].
Defined.
